(** * Digital twin MCP server: a shallow embedding and its properties

    The development follows the three TypeScript modules of the server:
    - [Vector]  : the context retriever ([queryVectors], [getRelevantContext],
                  [getVectorInfo]);
    - [Actions] : the answer generator and the RAG orchestrator
                  ([generateResponse], [ragQuery], [chatWithDigitalTwin]);
    - [Route]   : the JSON-RPC tool server ([handleMCPRequest], [POST], [GET]).

    JavaScript values that cross the JSON boundary are modelled by [JSValue];
    numbers are IEEE-754 doubles, as in the language.  Calls to the outside
    (the vector index, the chat-completion service, the console) are answered
    by a [World] and recorded in a trace, so that "service X is not called"
    is a statement about the trace. *)

From Stdlib Require Import List String Ascii Bool ZArith Sorted.
From Stdlib Require Import Floats.PrimFloat.
Import ListNotations.

Local Open Scope list_scope.
Local Open Scope string_scope.

Set Implicit Arguments.
Set Warnings "-inexact-float".

(** ** JavaScript values *)

Module JS.

(** A value as [JSON.parse] builds it, plus [undefined], which is what reading
    a missing property gives.  Objects keep their keys in insertion order. *)
#[warnings="-register-all"]
Inductive JSValue : Type :=
| JUndefined
| JNull
| JBool (b : bool)
| JNumber (n : float)
| JString (s : string)
| JArray (items : list JSValue)
| JObject (fields : list (string * JSValue)).

(** What a [throw] carries: an [Error] instance (of any subclass) with its
    [message], or some other value. *)
Inductive Thrown : Type :=
| ErrorObject (message : string)
| ThrownValue (v : JSValue).

(** [error instanceof Error ? error.message : fallback] *)
Definition message_or (fallback : string) (e : Thrown) : string :=
  match e with
  | ErrorObject m => m
  | ThrownValue _ => fallback
  end.

Definition is_nan (n : float) : bool := negb (PrimFloat.eqb n n).

(** ToBoolean on a number: [+0], [-0] and [NaN] are falsy. *)
Definition number_truthy (n : float) : bool :=
  negb (PrimFloat.eqb n PrimFloat.zero) && negb (is_nan n).

Definition string_truthy (s : string) : bool :=
  match s with
  | EmptyString => false
  | String _ _ => true
  end.

(** ToBoolean *)
Definition truthy (v : JSValue) : bool :=
  match v with
  | JUndefined => false
  | JNull => false
  | JBool b => b
  | JNumber n => number_truthy n
  | JString s => string_truthy s
  | JArray _ => true
  | JObject _ => true
  end.

Fixpoint lookup (k : string) (fields : list (string * JSValue)) : option JSValue :=
  match fields with
  | [] => None
  | (k', v) :: rest => if String.eqb k k' then Some v else lookup k rest
  end.

Definition has_own (k : string) (fields : list (string * JSValue)) : bool :=
  match lookup k fields with
  | Some _ => true
  | None => false
  end.

(** [v.k] for a [v] that is neither [null] nor [undefined], and a key [k] that
    no built-in prototype defines (all the keys the server reads are such):
    an own property of an object, [undefined] otherwise. *)
Definition prop (v : JSValue) (k : string) : JSValue :=
  match v with
  | JObject fields =>
      match lookup k fields with
      | Some x => x
      | None => JUndefined
      end
  | _ => JUndefined
  end.

Definition nullish (v : JSValue) : bool :=
  match v with
  | JUndefined | JNull => true
  | _ => false
  end.

(** [v?.k] *)
Definition opt_prop (v : JSValue) (k : string) : JSValue :=
  if nullish v then JUndefined else prop v k.

(** [a === "literal"] *)
Definition strict_eq_string (v : JSValue) (lit : string) : bool :=
  match v with
  | JString s => String.eqb s lit
  | _ => false
  end.

(** The outcome of evaluating an expression or awaiting a promise: a value,
    or a [throw] (a rejected promise). *)
Inductive Result (A : Type) : Type :=
| Ok (a : A)
| Throw (e : Thrown).
Arguments Ok {A} a.
Arguments Throw {A} e.

Definition bool_to_string (b : bool) : string :=
  if b then "true" else "false".

(** ToString, as a template literal applies it to a value built by
    [JSON.parse].  [nts] is Number::toString.  An array is joined with commas,
    [null] and [undefined] elements giving the empty string.  A plain object
    answers with [Object.prototype.toString], unless the JSON text gave it an
    own [toString] key: that value is never callable, [valueOf] then returns
    no primitive, and the conversion throws a TypeError. *)
Fixpoint ToString (nts : float -> string) (v : JSValue) : Result string :=
  match v with
  | JUndefined => Ok "undefined"
  | JNull => Ok "null"
  | JBool b => Ok (bool_to_string b)
  | JNumber n => Ok (nts n)
  | JString s => Ok s
  | JArray items =>
      (fix join_items (l : list JSValue) (first : bool) : Result string :=
         match l with
         | [] => Ok ""
         | x :: rest =>
             match (if nullish x then Ok "" else ToString nts x) with
             | Throw e => Throw e
             | Ok s =>
                 match join_items rest false with
                 | Throw e => Throw e
                 | Ok t => Ok ((if first then "" else ",") ++ s ++ t)
                 end
             end
         end) items true
  | JObject fields =>
      if has_own "toString" fields
      then Throw (ErrorObject "Cannot convert object to primitive value")
      else Ok "[object Object]"
  end.

(** [Array.prototype.join] on an array of strings: the loop of the standard,
    which appends the separator before every element but the first. *)
Definition join (sep : string) (parts : list string) : string :=
  fst (fold_left
         (fun (acc : string * bool) (part : string) =>
            let (r, first) := acc in
            ((if first then r else r ++ sep) ++ part, false))
         parts ("", true)).

(** A character stands for one UTF-16 code unit below 256.  Among those, the
    WhiteSpace and LineTerminator code points that [trim] strips are TAB, LF,
    VT, FF, CR, SP and NBSP. *)
Definition isWhiteSpace (c : ascii) : bool :=
  let n := nat_of_ascii c in
  ((9 <=? n) && (n <=? 13))%nat || (n =? 32)%nat || (n =? 160)%nat.

Fixpoint trimStart (s : string) : string :=
  match s with
  | EmptyString => EmptyString
  | String c rest => if isWhiteSpace c then trimStart rest else s
  end.

Fixpoint trimEnd (s : string) : string :=
  match s with
  | EmptyString => EmptyString
  | String c rest =>
      match trimEnd rest with
      | EmptyString => if isWhiteSpace c then EmptyString else String c EmptyString
      | t => String c t
      end
  end.

(** [String.prototype.trim] *)
Definition trim (s : string) : string := trimEnd (trimStart s).

Fixpoint all_whitespace (s : string) : bool :=
  match s with
  | EmptyString => true
  | String c rest => isWhiteSpace c && all_whitespace rest
  end.

(** [a || d] where [a] is [string | undefined] *)
Definition or_else (a : option string) (d : string) : string :=
  match a with
  | Some s => if string_truthy s then s else d
  | None => d
  end.

(** ToBoolean of a [string | undefined] *)
Definition opt_truthy (a : option string) : bool :=
  match a with
  | Some s => string_truthy s
  | None => false
  end.

(** [n || 0] *)
Definition or_zero (n : float) : float :=
  if number_truthy n then n else PrimFloat.zero.

(** A value that [JSON.parse] can return: no [undefined] inside, and no
    [NaN] (a literal too large for a double, such as [1e400], decodes to an
    infinity). *)
Fixpoint is_json (v : JSValue) : bool :=
  match v with
  | JUndefined => false
  | JNull | JBool _ | JString _ => true
  | JNumber n => negb (is_nan n)
  | JArray items => forallb is_json items
  | JObject fields =>
      (fix all_fields (l : list (string * JSValue)) : bool :=
         match l with
         | [] => true
         | (_, x) :: rest => is_json x && all_fields rest
         end) fields
  end.

End JS.

(** ** The outside world and the effect monad *)

Module Eff.
Import JS.

(** *** Shapes of the services' answers *)

(** [VectorMetadata] of the vector module: the metadata of a match, at the
    type the code casts it to. *)
Record VectorMetadata : Type := {
  meta_title : string;
  meta_type : string;
  meta_content : string;
  meta_category : string;
  meta_tags : list string
}.

(** The identifier of a stored vector: [string | number]. *)
Inductive VectorId : Type :=
| IdString (s : string)
| IdNumber (n : float).

(** One element of what [index.query] resolves to. *)
Record IndexMatch : Type := {
  match_id : VectorId;
  match_score : float;
  match_metadata : option VectorMetadata
}.

(** What [index.info] resolves to (the two fields the server reads). *)
Record IndexInfo : Type := {
  info_vectorCount : float;
  info_dimension : float
}.

Record ChatMessage : Type := {
  role : string;
  msg_content : string
}.

(** The argument of [client.chat.completions.create]. *)
Record ChatRequest : Type := {
  model : string;
  messages : list ChatMessage;
  temperature : float;
  max_tokens : Z
}.

(** The completion: [choices[i].message.content] is [string | null], and the
    code guards every step of the path with [?.]. *)
Record CompletionMessage : Type := {
  content : option string
}.

Record Choice : Type := {
  message : option CompletionMessage
}.

Record ChatCompletion : Type := {
  choices : list Choice
}.

(** *** The world *)

(** Everything the program text does not fix: the process environment, the
    engine's rendering of numbers, and the answers of the two services. *)
Record World : Type := {
  UPSTASH_VECTOR_REST_URL : option string;
  UPSTASH_VECTOR_REST_TOKEN : option string;
  GROQ_API_KEY : option string;
  Number_toString : float -> string;
  index_query : JSValue -> Z -> Result (list IndexMatch);
  index_info : Result IndexInfo;
  chat_completions_create : ChatRequest -> Result ChatCompletion
}.

(** What a run does to the outside, in order: one event per call of a method
    of a service client ([index.query], [index.info],
    [chat.completions.create]) and per [console.error].  A client may send
    several HTTP requests for one call; the trace does not count them. *)
Inductive Event : Type :=
| EvIndexQuery (data : JSValue) (topK : Z)
| EvIndexInfo
| EvChatCompletion (req : ChatRequest)
| EvConsoleError (label : string) (err : Thrown).

Definition Trace : Type := list Event.

(** *** The monad: read the world, log events, return or throw *)

Definition M (A : Type) : Type := World -> Trace * Result A.

Definition ret {A} (a : A) : M A := fun _ => ([], Ok a).

Definition throw {A} (e : Thrown) : M A := fun _ => ([], Throw e).

Definition bind {A B} (m : M A) (k : A -> M B) : M B :=
  fun w =>
    match m w with
    | (t1, Ok a) => let (t2, r) := k a w in ((t1 ++ t2)%list, r)
    | (t1, Throw e) => (t1, Throw e)
    end.

(** [try { m } catch (error) { handler error }] *)
Definition try_catch {A} (m : M A) (handler : Thrown -> M A) : M A :=
  fun w =>
    match m w with
    | (t1, Ok a) => (t1, Ok a)
    | (t1, Throw e) => let (t2, r) := handler e w in ((t1 ++ t2)%list, r)
    end.

Definition lift {A} (r : Result A) : M A := fun _ => ([], r).

Definition ask : M World := fun w => ([], Ok w).

Definition emit (e : Event) : M unit := fun _ => ([e], Ok tt).

Declare Scope eff_scope.
Delimit Scope eff_scope with eff.
Notation "x <- m ;; k" := (bind m (fun x => k))
  (at level 61, m at next level, right associativity) : eff_scope.
Notation "m ;;; k" := (bind m (fun _ => k))
  (at level 61, right associativity) : eff_scope.

Local Open Scope eff_scope.

(** [`${v}`] *)
Definition to_string (v : JSValue) : M string :=
  w <- ask ;; lift (ToString (Number_toString w) v).

(** [console.error(label, error)] *)
Definition console_error (label : string) (err : Thrown) : M unit :=
  emit (EvConsoleError label err).

(** The [catch] blocks of the vector and actions modules all read
    [console.error(label, error); throw new Error(`<prefix>${error instanceof
    Error ? error.message : "Unknown error"}`)]. *)
Definition rethrow {A} (label prefix : string) (error : Thrown) : M A :=
  console_error label error ;;;
  throw (ErrorObject (prefix ++ message_or "Unknown error" error)).

(** [!v] on an environment variable *)
Definition env_missing (v : option string) : bool :=
  match v with
  | Some s => negb (string_truthy s)
  | None => true
  end.

(** The events that reach the chat service. *)
Definition is_generation (e : Event) : bool :=
  match e with
  | EvChatCompletion _ => true
  | _ => false
  end.

End Eff.

(** ** The context retriever (the vector module) *)

Module Vector.
Import JS Eff.
Local Open Scope eff_scope.

Record QueryResult : Type := {
  id : string;
  result_score : float;
  metadata : option VectorMetadata
}.

(** [{ title, content, score }], the element of a retrieved context. *)
Record Source : Type := {
  title : string;
  content : string;
  score : float
}.

Record VectorInfo : Type := {
  vectorCount : float;
  dimension : float
}.

(** The client object: it only holds the credentials. *)
Record Index : Type := {
  url : option string;
  token : option string
}.

Definition getVectorIndex : M Index :=
  w <- ask ;;
  let url := UPSTASH_VECTOR_REST_URL w in
  let token := UPSTASH_VECTOR_REST_TOKEN w in
  if env_missing url || env_missing token
  then throw (ErrorObject "Upstash Vector credentials not configured")
  else ret {| url := url; token := token |}.

(** [index.query({ data, topK, includeMetadata: true })]: one call of the
    client's method.  How many HTTP requests the client sends for it (it is
    built with the library's default retry policy) is not modelled. *)
Definition Index_query (index : Index) (data : JSValue) (topK : Z)
  : M (list IndexMatch) :=
  w <- ask ;;
  emit (EvIndexQuery data topK) ;;;
  lift (index_query w data topK).

(** [index.info()]: one call of the client's method. *)
Definition Index_info (index : Index) : M IndexInfo :=
  w <- ask ;;
  emit EvIndexInfo ;;;
  lift (index_info w).

(** [String(result.id)] *)
Definition String_of_id (nts : float -> string) (i : VectorId) : string :=
  match i with
  | IdString s => s
  | IdNumber n => nts n
  end.

(** The arrow function mapped over the results in [queryVectors]. *)
Definition copy_match (nts : float -> string) (result : IndexMatch) : QueryResult :=
  {| id := String_of_id nts (match_id result);
     result_score := match_score result;
     metadata := match_metadata result |}.

Definition queryVectors (queryText : JSValue) (topK : Z) : M (list QueryResult) :=
  try_catch
    (index <- getVectorIndex ;;
     results <- Index_query index queryText topK ;;
     w <- ask ;;
     ret (map (copy_match (Number_toString w)) results))
    (rethrow "Error querying vectors:" "Failed to query vectors: ").

(** [result.metadata?.content] and [result.metadata?.title] *)
Definition metadata_content (result : QueryResult) : option string :=
  option_map meta_content (metadata result).

Definition metadata_title (result : QueryResult) : option string :=
  option_map meta_title (metadata result).

Definition to_source (result : QueryResult) : Source :=
  {| title := or_else (metadata_title result) "Information";
     content := or_else (metadata_content result) "";
     score := result_score result |}.

(** The predicate of the filter in [getRelevantContext]. *)
Definition keep (result : QueryResult) : bool :=
  opt_truthy (metadata_content result).

Definition getRelevantContext (question : JSValue) (topK : Z) : M (list Source) :=
  results <- queryVectors question topK ;;
  ret (map to_source (filter keep results)).

Definition getVectorInfo : M VectorInfo :=
  try_catch
    (index <- getVectorIndex ;;
     info <- Index_info index ;;
     ret {| vectorCount := or_zero (info_vectorCount info);
            dimension := or_zero (info_dimension info) |})
    (rethrow "Error getting vector info:" "Failed to get vector info: ").

End Vector.

(** ** The answer generator and the RAG orchestrator (the actions module) *)

Module Actions.
Import JS Eff.
Local Open Scope eff_scope.

Record RAGResponse : Type := {
  answer : string;
  sources : list Vector.Source
}.

Definition DEFAULT_MODEL : string := "llama-3.1-8b-instant".

Record Groq : Type := {
  apiKey : option string
}.

Definition getGroqClient : M Groq :=
  w <- ask ;;
  let apiKey := GROQ_API_KEY w in
  if env_missing apiKey
  then throw (ErrorObject "GROQ_API_KEY not configured")
  else ret {| apiKey := apiKey |}.

(** [client.chat.completions.create(req)]: one call of the client's method.
    How many HTTP requests the client sends for it (it is built with the
    library's default retry policy) is not modelled. *)
Definition Groq_create (client : Groq) (req : ChatRequest) : M ChatCompletion :=
  w <- ask ;;
  emit (EvChatCompletion req) ;;;
  lift (chat_completions_create w req).

Definition SYSTEM_PROMPT : string :=
  "You are an AI digital twin. Answer questions as if you are the person, speaking in first person about your background, skills, and experience.".

Definition completion_request (prompt model : string) : ChatRequest :=
  {| Eff.model := model;
     messages := [ {| role := "system"; msg_content := SYSTEM_PROMPT |};
                   {| role := "user"; msg_content := prompt |} ];
     temperature := 0.7%float;
     max_tokens := 500 |}.

(** [completion.choices[0]?.message?.content] *)
Definition first_content (completion : ChatCompletion) : option string :=
  match nth_error (choices completion) 0 with
  | Some choice =>
      match message choice with
      | Some m => Eff.content m
      | None => None
      end
  | None => None
  end.

Definition NO_RESPONSE : string := "No response generated".

(** [completion.choices[0]?.message?.content?.trim() || "No response generated"] *)
Definition completion_text (completion : ChatCompletion) : string :=
  or_else (option_map trim (first_content completion)) NO_RESPONSE.

Definition generateResponse (prompt : string) (model : string) : M string :=
  try_catch
    (client <- getGroqClient ;;
     completion <- Groq_create client (completion_request prompt model) ;;
     ret (completion_text completion))
    (rethrow "Error generating response:" "Failed to generate response: ").

Definition NO_INFORMATION : string :=
  "I don't have specific information about that topic.".

(** [`${source.title}: ${source.content}`] *)
Definition format_source (source : Vector.Source) : string :=
  Vector.title source ++ ": " ++ Vector.content source.

(** Step 2 of [ragQuery]: [sources.map(...).join("\n\n")] *)
Definition build_context (sources : list Vector.Source) : string :=
  join "

" (map format_source sources).

(** Step 3 of [ragQuery]: the template, with the context and the question
    already converted to strings. *)
Definition build_prompt (context question : string) : string :=
  "Based on the following information about yourself, answer the question.
Speak in first person as if you are describing your own background.

Your Information:
" ++ context ++ "

Question: " ++ question ++ "

Provide a helpful, professional response:".

Definition ragQuery (question : JSValue) : M RAGResponse :=
  try_catch
    (sources <- Vector.getRelevantContext question 3 ;;
     if (List.length sources =? 0)%nat
     then ret {| answer := NO_INFORMATION; sources := [] |}
     else
       let context := build_context sources in
       q <- to_string question ;;
       let prompt := build_prompt context q in
       answer <- generateResponse prompt DEFAULT_MODEL ;;
       ret {| answer := answer; sources := sources |})
    (rethrow "Error in RAG query:" "RAG query failed: ").

Definition chatWithDigitalTwin (message : JSValue) : M string :=
  response <- ragQuery message ;;
  ret (answer response).

End Actions.

(** ** The JSON-RPC tool server (the route module) *)

Module Route.
Import JS Eff.
Local Open Scope eff_scope.

Record RpcError : Type := {
  code : Z;
  message : string
}.

(** [MCPResponse]: [result] and [error] are optional members; [id] is whatever
    the request carried. *)
Record MCPResponse : Type := {
  jsonrpc : string;
  id : JSValue;
  result : option JSValue;
  error : option RpcError
}.

Record Tool : Type := {
  name : string;
  description : string;
  inputSchema : JSValue
}.

Definition TOOLS : list Tool :=
  [ {| name := "ask_digital_twin";
       description := "Ask the digital twin a question about their professional background, skills, experience, education, or career goals.";
       inputSchema :=
         JObject
           [ ("type", JString "object");
             ("properties",
               JObject
                 [ ("question",
                     JObject
                       [ ("type", JString "string");
                         ("description", JString "The question to ask the digital twin") ]) ]);
             ("required", JArray [JString "question"]) ] |};
    {| name := "get_profile_info";
       description := "Get information about the digital twin's vector database status";
       inputSchema :=
         JObject
           [ ("type", JString "object");
             ("properties", JObject []);
             ("required", JArray []) ] |} ].

Definition Tool_value (t : Tool) : JSValue :=
  JObject
    [ ("name", JString (name t));
      ("description", JString (description t));
      ("inputSchema", inputSchema t) ].

Definition success (id : JSValue) (r : JSValue) : MCPResponse :=
  {| jsonrpc := "2.0"; id := id; result := Some r; error := None |}.

Definition failure (id : JSValue) (c : Z) (m : string) : MCPResponse :=
  {| jsonrpc := "2.0"; id := id; result := None;
     error := Some {| code := c; message := m |} |}.

Definition initialize_result : JSValue :=
  JObject
    [ ("protocolVersion", JString "2024-11-05");
      ("serverInfo",
        JObject
          [ ("name", JString "digital-twin-mcp");
            ("version", JString "1.0.0") ]);
      ("capabilities", JObject [ ("tools", JObject []) ]) ].

Definition Source_value (s : Vector.Source) : JSValue :=
  JObject
    [ ("title", JString (Vector.title s));
      ("relevance", JNumber (Vector.score s)) ].

Definition ask_result (response : Actions.RAGResponse) : JSValue :=
  JObject
    [ ("content",
        JArray
          [ JObject
              [ ("type", JString "text");
                ("text", JString (Actions.answer response)) ] ]);
      ("metadata",
        JObject
          [ ("sources", JArray (map Source_value (Actions.sources response))) ]) ].

Definition profile_text (nts : float -> string) (info : Vector.VectorInfo) : string :=
  "Digital Twin Profile Status:
- Vector Count: " ++ nts (Vector.vectorCount info) ++ "
- Dimension: " ++ nts (Vector.dimension info).

Definition profile_result (nts : float -> string) (info : Vector.VectorInfo) : JSValue :=
  JObject
    [ ("content",
        JArray
          [ JObject
              [ ("type", JString "text");
                ("text", JString (profile_text nts info)) ] ]) ].

(** The [tools/call] case of the switch. *)
Definition tools_call (id params : JSValue) : M MCPResponse :=
  let toolName := opt_prop params "name" in
  let toolArgs := opt_prop params "arguments" in
  if strict_eq_string toolName "ask_digital_twin" then
    let question := opt_prop toolArgs "question" in
    if negb (truthy question) then
      ret (failure id (-32602) "Missing required parameter: question")
    else
      response <- Actions.ragQuery question ;;
      ret (success id (ask_result response))
  else if strict_eq_string toolName "get_profile_info" then
    info <- Vector.getVectorInfo ;;
    w <- ask ;;
    ret (success id (profile_result (Number_toString w) info))
  else
    shown <- to_string toolName ;;
    ret (failure id (-32601) ("Unknown tool: " ++ shown)).

(** The body of the [try] block: the switch on [method]. *)
Definition dispatch (id method params : JSValue) : M MCPResponse :=
  if strict_eq_string method "initialize" then
    ret (success id initialize_result)
  else if strict_eq_string method "tools/list" then
    ret (success id (JObject [ ("tools", JArray (map Tool_value TOOLS)) ]))
  else if strict_eq_string method "tools/call" then
    tools_call id params
  else
    shown <- to_string method ;;
    ret (failure id (-32601) ("Method not found: " ++ shown)).

(** The destructuring [const { id, method, params } = request] stands before
    the [try] block: on [null] or [undefined] it throws a TypeError that the
    function does not catch (the returned promise is rejected). *)
Definition handleMCPRequest (request : JSValue) : M MCPResponse :=
  if nullish request then
    throw (ErrorObject "Cannot destructure property 'id' of 'request' as it is null.")
  else
    let id := prop request "id" in
    let method := prop request "method" in
    let params := prop request "params" in
    try_catch
      (dispatch id method params)
      (fun error =>
         ret (failure id (-32603) (message_or "Internal error" error))).

(** A request as the route sees it: what [request.json()] resolves to, or the
    error it rejects with when the body is not JSON text. *)
Record NextRequest : Type := {
  json : Result JSValue
}.

Record NextResponse (B : Type) : Type := {
  status : Z;
  body : B
}.

(** [NextResponse.json(body)] and [NextResponse.json(body, { status })] *)
Definition NextResponse_json {B} (b : B) : NextResponse B :=
  {| status := 200; body := b |}.

Definition NextResponse_json_status {B} (b : B) (st : Z) : NextResponse B :=
  {| status := st; body := b |}.

Definition PARSE_ERROR : MCPResponse :=
  {| jsonrpc := "2.0"; id := JNull; result := None;
     error := Some {| code := -32700; message := "Parse error" |} |}.

Definition POST (request : NextRequest) : M (NextResponse MCPResponse) :=
  try_catch
    (body <- lift (json request) ;;
     response <- handleMCPRequest body ;;
     ret (NextResponse_json response))
    (fun _ => ret (NextResponse_json_status PARSE_ERROR 400)).

Record Health : Type := {
  health_status : string;
  server : string;
  version : string;
  tools : list string
}.

Definition GET : M (NextResponse Health) :=
  ret (NextResponse_json
         {| health_status := "ok";
            server := "digital-twin-mcp";
            version := "1.0.0";
            tools := map name TOOLS |}).

End Route.

(** ** The chat page (the client component that calls the actions) *)

Module Page.
Import JS Eff.

Inductive Role : Type :=
| user
| assistant.

Record Message : Type := {
  role : Role;
  content : string
}.

(** The four [useState] cells of the component. *)
Record State : Type := {
  messages : list Message;
  input : string;
  isLoading : bool;
  vectorInfo : option Vector.VectorInfo
}.

(** A handler of the page: it reads and sets the state cells, calls server
    actions, and may throw.  What was set before a throw stays set. *)
Definition UI (A : Type) : Type := State -> World -> Trace * State * Result A.

Definition ret {A} (a : A) : UI A := fun st _ => ([], st, Ok a).

Definition bind {A B} (m : UI A) (k : A -> UI B) : UI B :=
  fun st w =>
    match m st w with
    | (t1, st1, Ok a) =>
        match k a st1 w with
        | (t2, st2, r) => ((t1 ++ t2)%list, st2, r)
        end
    | (t1, st1, Throw e) => (t1, st1, Throw e)
    end.

(** [try { m } catch (error) { handler error }] *)
Definition try_catch {A} (m : UI A) (handler : Thrown -> UI A) : UI A :=
  fun st w =>
    match m st w with
    | (t1, st1, Ok a) => (t1, st1, Ok a)
    | (t1, st1, Throw e) =>
        match handler e st1 w with
        | (t2, st2, r) => ((t1 ++ t2)%list, st2, r)
        end
    end.

(** [try { m } finally { fin }]: [fin] runs in both cases; the outcome is
    that of [m], unless [fin] itself throws. *)
Definition try_finally {A} (m : UI A) (fin : UI unit) : UI A :=
  fun st w =>
    match m st w with
    | (t1, st1, r) =>
        match fin st1 w with
        | (t2, st2, Ok _) => ((t1 ++ t2)%list, st2, r)
        | (t2, st2, Throw e) => ((t1 ++ t2)%list, st2, Throw e)
        end
    end.

(** [await action(...)]: a call of a server action, taken as a direct call. *)
Definition call {A} (m : M A) : UI A :=
  fun st w => match m w with (t, r) => (t, st, r) end.

(** The values of the cells the handler closes over. *)
Definition get : UI State := fun st _ => ([], st, Ok st).

(** [setMessages((prev) => f(prev))] and the three plain setters *)
Definition setMessages (f : list Message -> list Message) : UI unit :=
  fun st _ =>
    ([], {| messages := f (messages st); input := input st;
            isLoading := isLoading st; vectorInfo := vectorInfo st |}, Ok tt).

Definition setInput (v : string) : UI unit :=
  fun st _ =>
    ([], {| messages := messages st; input := v;
            isLoading := isLoading st; vectorInfo := vectorInfo st |}, Ok tt).

Definition setIsLoading (b : bool) : UI unit :=
  fun st _ =>
    ([], {| messages := messages st; input := input st;
            isLoading := b; vectorInfo := vectorInfo st |}, Ok tt).

Definition setVectorInfo (v : option Vector.VectorInfo) : UI unit :=
  fun st _ =>
    ([], {| messages := messages st; input := input st;
            isLoading := isLoading st; vectorInfo := v |}, Ok tt).

Declare Scope ui_scope.
Delimit Scope ui_scope with ui.
Notation "x <- m ;; k" := (bind m (fun x => k))
  (at level 61, m at next level, right associativity) : ui_scope.
Notation "m ;;; k" := (bind m (fun _ => k))
  (at level 61, right associativity) : ui_scope.

Local Open Scope ui_scope.

(** [!input.trim() || isLoading], the guard of [handleSubmit]; the Send
    button is disabled on [isLoading || !input.trim()]. *)
Definition submit_blocked (st : State) : bool :=
  negb (string_truthy (trim (input st))) || isLoading st.

Definition send_disabled (st : State) : bool :=
  isLoading st || negb (string_truthy (trim (input st))).

(** [`Error: ${error instanceof Error ? error.message : "Something went
    wrong"}`] *)
Definition error_text (error : Thrown) : string :=
  "Error: " ++ message_or "Something went wrong" error.

(** [e.preventDefault()] touches neither the cells nor the services, and is
    left out. *)
Definition handleSubmit : UI unit :=
  st <- get ;;
  if submit_blocked st then ret tt
  else
    let userMessage := trim (input st) in
    setInput "" ;;;
    setMessages (fun prev =>
                   (prev ++ [ {| role := user; content := userMessage |} ])%list) ;;;
    setIsLoading true ;;;
    try_finally
      (try_catch
         (response <- call (Actions.chatWithDigitalTwin (JString userMessage)) ;;
          setMessages (fun prev =>
                         (prev ++ [ {| role := assistant;
                                       content := response |} ])%list))
         (fun error =>
            setMessages (fun prev =>
                           (prev ++ [ {| role := assistant;
                                         content := error_text error |} ])%list)))
      (setIsLoading false).

Definition checkVectorDB : UI unit :=
  try_catch
    (info <- call Vector.getVectorInfo ;;
     setVectorInfo (Some info))
    (fun error => call (console_error "Error checking vector DB:" error)).

End Page.

(** ** What the specification says, in its own words *)

Module Spec.
Import JS Eff.

Definition first_char (s : string) : option ascii :=
  match s with
  | EmptyString => None
  | String c _ => Some c
  end.

Fixpoint last_char (s : string) : option ascii :=
  match s with
  | EmptyString => None
  | String c rest =>
      match rest with
      | EmptyString => Some c
      | String _ _ => last_char rest
      end
  end.

(** [t] is [s] with its surrounding whitespace removed: only whitespace was
    cut, on both sides, and none is left at either end. *)
Definition trimmed_of (s t : string) : Prop :=
  (exists pre post,
      s = pre ++ t ++ post
      /\ all_whitespace pre = true /\ all_whitespace post = true)
  /\ (forall c, first_char t = Some c -> isWhiteSpace c = false)
  /\ (forall c, last_char t = Some c -> isWhiteSpace c = false).

(** One fragment of the context block: ["<title>: <content>"]. *)
Definition entry (s : Vector.Source) : string :=
  Vector.title s ++ ": " ++ Vector.content s.

(** The separator between two fragments: the end of a line, then an empty
    line. *)
Definition blank_line : string := "

".

(** The context block: one entry per fragment, in the order of the
    sequence, consecutive entries separated by a blank line. *)
Fixpoint context_block (sources : list Vector.Source) : string :=
  match sources with
  | [] => ""
  | s :: rest =>
      match rest with
      | [] => entry s
      | _ :: _ => entry s ++ blank_line ++ context_block rest
      end
  end.

(** What stands in the block before, and after, the entry of one fragment:
    the block of the fragments before it, then a blank line; a blank line,
    then the block of the fragments after it. *)
Definition lead (before : list Vector.Source) : string :=
  match before with
  | [] => ""
  | _ :: _ => context_block before ++ blank_line
  end.

Definition trail (after : list Vector.Source) : string :=
  match after with
  | [] => ""
  | _ :: _ => blank_line ++ context_block after
  end.

(** The title a retained match is given: its own, or a default when it has
    none. *)
Definition title_of (md : VectorMetadata) : string :=
  match meta_title md with
  | EmptyString => "Information"
  | String _ _ => meta_title md
  end.

(** [Retained found kept]: [kept] lists, in the order of [found], exactly the
    matches of [found] whose content is present and non-empty; a match
    without metadata or with an empty content contributes nothing. *)
Inductive Retained : list IndexMatch -> list Vector.Source -> Prop :=
| Retained_nil : Retained [] []
| Retained_keep (m : IndexMatch) (md : VectorMetadata) found kept :
    match_metadata m = Some md ->
    meta_content md <> "" ->
    Retained found kept ->
    Retained (m :: found)
             ({| Vector.title := title_of md;
                 Vector.content := meta_content md;
                 Vector.score := match_score m |} :: kept)
| Retained_empty (m : IndexMatch) (md : VectorMetadata) found kept :
    match_metadata m = Some md ->
    meta_content md = "" ->
    Retained found kept ->
    Retained (m :: found) kept
| Retained_absent (m : IndexMatch) found kept :
    match_metadata m = None ->
    Retained found kept ->
    Retained (m :: found) kept.

(** Exactly one of [result] and [error] is present. *)
Definition one_of_result_error (r : Route.MCPResponse) : Prop :=
  (Route.result r <> None /\ Route.error r = None)
  \/ (Route.result r = None /\ Route.error r <> None).

(** A response built by [success] or [failure] for the identifier [i]. *)
Definition answers (i : JSValue) (resp : Route.MCPResponse) : Prop :=
  (exists r, resp = Route.success i r)
  \/ (exists c m, resp = Route.failure i c m).

(** A [tools/call] request that names the tool [tool]. *)
Definition calls_tool (request : JSValue) (tool : string) : Prop :=
  prop request "method" = JString "tools/call"
  /\ opt_prop (prop request "params") "name" = JString tool.

(** [params.arguments.question] of a request, [undefined] when any step of
    the path is missing. *)
Definition question_of (request : JSValue) : JSValue :=
  opt_prop (opt_prop (prop request "params") "arguments") "question".

(** The credentials of a service are set and non-empty. *)
Definition vector_configured (w : World) : Prop :=
  env_missing (UPSTASH_VECTOR_REST_URL w) = false
  /\ env_missing (UPSTASH_VECTOR_REST_TOKEN w) = false.

Definition groq_configured (w : World) : Prop :=
  env_missing (GROQ_API_KEY w) = false.

End Spec.

(** ** Concrete worlds and requests, used to exercise the statements *)

Module Scenario.
Import JS Eff.

(** A world with all credentials set, whose vector index answers every query
    with [found] and whose chat service answers every request with one choice
    carrying [reply]. *)
Definition world (found : list IndexMatch) (reply : option string) : World :=
  {| UPSTASH_VECTOR_REST_URL := Some "https://vector.example";
     UPSTASH_VECTOR_REST_TOKEN := Some "token";
     GROQ_API_KEY := Some "key";
     Number_toString := fun _ => "0";
     index_query := fun _ _ => Ok found;
     index_info :=
       Ok {| info_vectorCount := 42%float; info_dimension := 1024%float |};
     chat_completions_create := fun _ =>
       Ok {| choices := [ {| message := Some {| content := reply |} |} ] |} |}.

(** The same services behind a process that has no credentials at all. *)
Definition unconfigured : World :=
  {| UPSTASH_VECTOR_REST_URL := None;
     UPSTASH_VECTOR_REST_TOKEN := None;
     GROQ_API_KEY := None;
     Number_toString := fun _ => "0";
     index_query := fun _ _ => Ok [];
     index_info :=
       Ok {| info_vectorCount := 0%float; info_dimension := 0%float |};
     chat_completions_create := fun _ => Ok {| choices := [] |} |}.

Definition skills : IndexMatch :=
  {| match_id := IdString "skills-1";
     match_score := 0.91%float;
     match_metadata :=
       Some {| meta_title := "Skills";
               meta_type := "skills";
               meta_content := "Go, TypeScript, distributed systems";
               meta_category := "technical";
               meta_tags := ["go"; "typescript"] |} |}.

Definition education : IndexMatch :=
  {| match_id := IdNumber 7%float;
     match_score := 0.55%float;
     match_metadata :=
       Some {| meta_title := "";
               meta_type := "education";
               meta_content := "BSc in Computer Science";
               meta_category := "education";
               meta_tags := [] |} |}.

(** A match whose metadata carries an empty content, and one without
    metadata. *)
Definition hollow : IndexMatch :=
  {| match_id := IdString "hollow";
     match_score := 0.80%float;
     match_metadata :=
       Some {| meta_title := "Hollow";
               meta_type := "note";
               meta_content := "";
               meta_category := "misc";
               meta_tags := [] |} |}.

Definition bare : IndexMatch :=
  {| match_id := IdString "bare";
     match_score := 0.70%float;
     match_metadata := None |}.

(** [{"jsonrpc":"2.0","id":<id>,"method":"tools/call",
      "params":{"name":<tool>,"arguments":<args>}}] *)
Definition call (id : JSValue) (tool : string) (args : JSValue) : JSValue :=
  JObject
    [ ("jsonrpc", JString "2.0");
      ("id", id);
      ("method", JString "tools/call");
      ("params", JObject [ ("name", JString tool); ("arguments", args) ]) ].

End Scenario.

(** ** Worlds in which a service fails *)

Module Outage.
Import JS Eff.

(** Credentials set; the vector index rejects every call with [cause]; the
    chat service answers [reply]. *)
Definition index_down (cause : Thrown) (reply : option string) : World :=
  {| UPSTASH_VECTOR_REST_URL := Some "https://vector.example";
     UPSTASH_VECTOR_REST_TOKEN := Some "token";
     GROQ_API_KEY := Some "key";
     Number_toString := fun _ => "0";
     index_query := fun _ _ => Throw cause;
     index_info := Throw cause;
     chat_completions_create := fun _ =>
       Ok {| choices := [ {| message := Some {| content := reply |} |} ] |} |}.

(** Credentials set; the vector index answers [found]; the chat service
    rejects every request with [cause]. *)
Definition chat_down (found : list IndexMatch) (cause : Thrown) : World :=
  {| UPSTASH_VECTOR_REST_URL := Some "https://vector.example";
     UPSTASH_VECTOR_REST_TOKEN := Some "token";
     GROQ_API_KEY := Some "key";
     Number_toString := fun _ => "0";
     index_query := fun _ _ => Ok found;
     index_info :=
       Ok {| info_vectorCount := 42%float; info_dimension := 1024%float |};
     chat_completions_create := fun _ => Throw cause |}.

(** The vector index is configured and answers [found]; the key of the chat
    service is missing. *)
Definition no_key (found : list IndexMatch) : World :=
  {| UPSTASH_VECTOR_REST_URL := Some "https://vector.example";
     UPSTASH_VECTOR_REST_TOKEN := Some "token";
     GROQ_API_KEY := Some "";
     Number_toString := fun _ => "0";
     index_query := fun _ _ => Ok found;
     index_info :=
       Ok {| info_vectorCount := 0%float; info_dimension := 1024%float |};
     chat_completions_create := fun _ => Ok {| choices := [] |} |}.

End Outage.

(** ** What a run is observed to do *)

Module Observe.
Import JS Eff.

(** The calls of the two service clients: every event but the console's.
    This counts calls of the clients' methods, not the requests a client
    sends for one call. *)
Definition is_client_call (e : Event) : bool :=
  match e with
  | EvConsoleError _ _ => false
  | _ => true
  end.

Definition client_calls (t : Trace) : Trace := filter is_client_call t.

Definition generations (t : Trace) : nat :=
  List.length (filter is_generation t).

(** The error object of a response, if any, and its code. *)
Definition error_code (resp : Route.MCPResponse) : option Z :=
  option_map Route.code (Route.error resp).

(** A text a client is shown as an answer: not empty, and with no
    whitespace at either end. *)
Definition clean (s : string) : Prop :=
  s <> ""
  /\ (forall c, Spec.first_char s = Some c -> isWhiteSpace c = false)
  /\ (forall c, Spec.last_char s = Some c -> isWhiteSpace c = false).

(** A transcript in which the turns alternate, the user speaking first and
    the assistant last. *)
Fixpoint alternating (ms : list Page.Message) : Prop :=
  match ms with
  | [] => True
  | u :: rest =>
      match rest with
      | [] => False
      | a :: rest' =>
          Page.role u = Page.user /\ Page.role a = Page.assistant
          /\ alternating rest'
      end
  end.

(** The request of a tool call, with any other members the client added. *)
Definition is_method (request : JSValue) (m : string) : Prop :=
  prop request "method" = JString m.

End Observe.

(** * Properties *)

(** ** Strings *)

Module StringFacts.
Import JS.

Lemma append_assoc (a b c : string) : (a ++ b) ++ c = a ++ (b ++ c).
Proof.
  induction a as [|ch a IH]; simpl; [reflexivity | now rewrite IH].
Qed.

Lemma append_nil_r (a : string) : a ++ "" = a.
Proof.
  induction a as [|ch a IH]; simpl; [reflexivity | now rewrite IH].
Qed.

(** The accumulator of the joining loop, once the first element is in. *)
Lemma join_loop (sep : string) (parts : list string) (r : string) :
  fold_left
    (fun (acc : string * bool) (part : string) =>
       let (r, first) := acc in
       ((if first then r else r ++ sep) ++ part, false))
    parts (r, false)
  = (r ++ String.concat "" (map (fun p => sep ++ p) parts), false).
Proof.
  revert r.
  induction parts as [|p parts IH]; intros r; simpl.
  - now rewrite append_nil_r.
  - rewrite IH. f_equal.
    destruct parts as [|p' parts]; simpl.
    + now rewrite append_nil_r, append_assoc.
    + now rewrite !append_assoc.
Qed.

Lemma concat_nil_sep (sep : string) (p : string) (parts : list string) :
  String.concat "" (map (fun q => sep ++ q) (p :: parts))
  = sep ++ String.concat sep (p :: parts).
Proof.
  revert p.
  induction parts as [|p' parts IH]; intros p.
  - reflexivity.
  - change (String.concat "" (map (fun q => sep ++ q) (p :: p' :: parts)))
      with ((sep ++ p) ++ "" ++
            String.concat "" (map (fun q => sep ++ q) (p' :: parts))).
    rewrite IH.
    change (String.concat sep (p :: p' :: parts))
      with (p ++ sep ++ String.concat sep (p' :: parts)).
    simpl. now rewrite append_assoc.
Qed.

(** The loop of [Array.prototype.join] computes the separated concatenation. *)
Lemma join_concat (sep : string) (parts : list string) :
  join sep parts = String.concat sep parts.
Proof.
  unfold join.
  destruct parts as [|p parts]; [reflexivity|].
  cbn [fold_left]. cbn [append].
  rewrite join_loop. cbn [fst].
  destruct parts as [|p' parts].
  - simpl. now rewrite append_nil_r.
  - now rewrite concat_nil_sep.
Qed.

Lemma concat_app (sep : string) (l1 l2 : list string) :
  l1 <> [] -> l2 <> [] ->
  String.concat sep (l1 ++ l2)%list
  = String.concat sep l1 ++ sep ++ String.concat sep l2.
Proof.
  intros H1 H2.
  induction l1 as [|a l1 IH]; [congruence|].
  destruct l1 as [|b l1].
  - destruct l2 as [|c l2]; [congruence | reflexivity].
  - change (String.concat sep (((a :: b :: l1) ++ l2)%list))
      with (a ++ sep ++ String.concat sep ((b :: l1) ++ l2)%list).
    rewrite IH by discriminate.
    change (String.concat sep (a :: b :: l1))
      with (a ++ sep ++ String.concat sep (b :: l1)).
    now rewrite !append_assoc.
Qed.

End StringFacts.

(** ** Trimming *)

Module TrimFacts.
Import JS Spec StringFacts.

Lemma trimStart_cut (s : string) :
  exists pre, s = pre ++ trimStart s /\ all_whitespace pre = true.
Proof.
  induction s as [|c s IH]; simpl.
  - exists "". split; reflexivity.
  - destruct (isWhiteSpace c) eqn:Hc.
    + destruct IH as [pre [Hs Hpre]].
      exists (String c pre). split.
      * simpl. now rewrite <- Hs.
      * simpl. now rewrite Hc, Hpre.
    + exists "". split; reflexivity.
Qed.

Lemma trimEnd_cut (s : string) :
  exists post, s = trimEnd s ++ post /\ all_whitespace post = true.
Proof.
  induction s as [|c s IH]; simpl.
  - exists "". split; reflexivity.
  - destruct IH as [post [Hs Hpost]].
    destruct (trimEnd s) as [|d t] eqn:Ht.
    + destruct (isWhiteSpace c) eqn:Hc.
      * exists (String c post). simpl in *. subst s.
        split; [reflexivity | simpl; now rewrite Hc, Hpost].
      * exists post. simpl in *. now subst s.
    + exists post. split; [|assumption].
      change (String c s = String c (String d t ++ post)). now f_equal.
Qed.

Lemma trimStart_first (s : string) (c : ascii) :
  first_char (trimStart s) = Some c -> isWhiteSpace c = false.
Proof.
  induction s as [|d s IH]; simpl; [discriminate|].
  destruct (isWhiteSpace d) eqn:Hd; simpl; [assumption|].
  intros H. now inversion H; subst.
Qed.

Lemma trimEnd_first (s : string) :
  trimEnd s = "" \/ first_char (trimEnd s) = first_char s.
Proof.
  destruct s as [|c s]; simpl; [now left|].
  destruct (trimEnd s); [destruct (isWhiteSpace c)|]; simpl; auto.
Qed.

Lemma trimEnd_last (s : string) (c : ascii) :
  last_char (trimEnd s) = Some c -> isWhiteSpace c = false.
Proof.
  induction s as [|d s IH]; simpl; [discriminate|].
  destruct (trimEnd s) as [|e t] eqn:Ht.
  - destruct (isWhiteSpace d) eqn:Hd; simpl; [discriminate|].
    intros H. now inversion H; subst.
  - intros H. apply IH. exact H.
Qed.

(** [trim] removes the surrounding whitespace, and nothing else. *)
Lemma trim_trimmed (s : string) : trimmed_of s (trim s).
Proof.
  unfold trimmed_of, trim.
  destruct (trimStart_cut s) as [pre [Hs Hpre]].
  destruct (trimEnd_cut (trimStart s)) as [post [Ht Hpost]].
  repeat split.
  - exists pre, post. repeat split; try assumption.
    now rewrite <- Ht.
  - intros c Hc.
    destruct (trimEnd_first (trimStart s)) as [He | He].
    + rewrite He in Hc. discriminate.
    + rewrite He in Hc. now apply trimStart_first with (s := s).
  - intros c Hc. now apply trimEnd_last with (s := trimStart s).
Qed.

(** A string of whitespace only is trimmed to nothing. *)
Lemma trim_all_whitespace (s : string) :
  all_whitespace s = true -> trim s = "".
Proof.
  unfold trim.
  induction s as [|c s IH]; simpl; [reflexivity|].
  intros H. apply andb_prop in H as [Hc Hs].
  rewrite Hc. now apply IH.
Qed.

End TrimFacts.

(** ** The context retriever *)

Module VectorFacts.
Import JS Eff Spec.

Lemma string_truthy_false (s : string) : string_truthy s = false <-> s = "".
Proof.
  destruct s; simpl; split; intros H; congruence.
Qed.

Lemma string_truthy_true (s : string) : string_truthy s = true <-> s <> "".
Proof.
  destruct s; simpl; split; intros H; congruence.
Qed.

Lemma getVectorIndex_configured (w : World) :
  vector_configured w ->
  Vector.getVectorIndex w
  = ([], Ok {| Vector.url := UPSTASH_VECTOR_REST_URL w;
               Vector.token := UPSTASH_VECTOR_REST_TOKEN w |}).
Proof.
  intros [Hu Ht].
  unfold Vector.getVectorIndex, bind, ask, ret, throw.
  now rewrite Hu, Ht.
Qed.

Lemma getVectorIndex_unconfigured (w : World) :
  ~ vector_configured w ->
  Vector.getVectorIndex w
  = ([], Throw (ErrorObject "Upstash Vector credentials not configured")).
Proof.
  intros H.
  unfold Vector.getVectorIndex, bind, ask, ret, throw.
  destruct (env_missing (UPSTASH_VECTOR_REST_URL w)) eqn:Hu;
    destruct (env_missing (UPSTASH_VECTOR_REST_TOKEN w)) eqn:Ht;
    try reflexivity.
  exfalso. apply H. now split.
Qed.

Lemma vector_configured_dec (w : World) :
  vector_configured w \/ ~ vector_configured w.
Proof.
  unfold vector_configured.
  destruct (env_missing (UPSTASH_VECTOR_REST_URL w));
    destruct (env_missing (UPSTASH_VECTOR_REST_TOKEN w));
    try (right; intros [? ?]; discriminate).
  left. now split.
Qed.

(** The three ways a query can end. *)
Lemma queryVectors_ok (w : World) (q : JSValue) (k : Z) (found : list IndexMatch) :
  vector_configured w ->
  index_query w q k = Ok found ->
  Vector.queryVectors q k w
  = ([EvIndexQuery q k], Ok (map (Vector.copy_match (Number_toString w)) found)).
Proof.
  intros Hw Hq.
  unfold Vector.queryVectors, try_catch, bind.
  rewrite (getVectorIndex_configured Hw).
  unfold Vector.Index_query, bind, ask, emit, lift, ret. simpl.
  now rewrite Hq.
Qed.

Lemma queryVectors_rejected (w : World) (q : JSValue) (k : Z) (e : Thrown) :
  vector_configured w ->
  index_query w q k = Throw e ->
  Vector.queryVectors q k w
  = ([EvIndexQuery q k; EvConsoleError "Error querying vectors:" e],
     Throw (ErrorObject
              ("Failed to query vectors: " ++ message_or "Unknown error" e))).
Proof.
  intros Hw Hq.
  unfold Vector.queryVectors, try_catch, bind.
  rewrite (getVectorIndex_configured Hw).
  unfold Vector.Index_query, rethrow, bind, ask, emit, lift, ret, console_error, throw.
  simpl. now rewrite Hq.
Qed.

Lemma queryVectors_unconfigured (w : World) (q : JSValue) (k : Z) :
  ~ vector_configured w ->
  Vector.queryVectors q k w
  = ([EvConsoleError "Error querying vectors:"
        (ErrorObject "Upstash Vector credentials not configured")],
     Throw (ErrorObject
              "Failed to query vectors: Upstash Vector credentials not configured")).
Proof.
  intros Hw.
  unfold Vector.queryVectors, try_catch, bind.
  rewrite (getVectorIndex_unconfigured Hw).
  reflexivity.
Qed.

(** Every run of [queryVectors] is one of the three above. *)
Lemma queryVectors_cases (w : World) (q : JSValue) (k : Z) :
  (exists found,
      Vector.queryVectors q k w
      = ([EvIndexQuery q k], Ok (map (Vector.copy_match (Number_toString w)) found)))
  \/ (exists t m,
         Vector.queryVectors q k w = (t, Throw (ErrorObject m))
         /\ forallb (fun ev => negb (is_generation ev)) t = true).
Proof.
  destruct (vector_configured_dec w) as [Hw | Hw].
  - destruct (index_query w q k) as [found | e] eqn:Hq.
    + left. exists found. now apply queryVectors_ok.
    + right. do 2 eexists. split.
      * eapply queryVectors_rejected; eassumption.
      * reflexivity.
  - right. do 2 eexists. split.
    + now apply queryVectors_unconfigured.
    + reflexivity.
Qed.

Lemma getRelevantContext_run (w : World) (q : JSValue) (k : Z) :
  Vector.getRelevantContext q k w
  = match Vector.queryVectors q k w with
    | (t, Ok results) => (t, Ok (map Vector.to_source (filter Vector.keep results)))
    | (t, Throw e) => (t, Throw e)
    end.
Proof.
  unfold Vector.getRelevantContext, bind, ret.
  destruct (Vector.queryVectors q k w) as [t [results | e]]; [|reflexivity].
  now rewrite app_nil_r.
Qed.

(** Retrieval never reaches the chat service. *)
Lemma getRelevantContext_no_generation (w : World) (q : JSValue) (k : Z) :
  forallb (fun ev => negb (is_generation ev))
          (fst (Vector.getRelevantContext q k w)) = true.
Proof.
  rewrite getRelevantContext_run.
  destruct (queryVectors_cases w q k) as [[found H] | [t [m [H Ht]]]];
    rewrite H; [reflexivity | exact Ht].
Qed.

(** When retrieval fails, it fails with an [Error]. *)
Lemma getRelevantContext_throws_error (w : World) (q : JSValue) (k : Z)
      (t : Trace) (e : Thrown) :
  Vector.getRelevantContext q k w = (t, Throw e) ->
  exists m, e = ErrorObject m.
Proof.
  rewrite getRelevantContext_run.
  destruct (queryVectors_cases w q k) as [[found H] | [t' [m [H _]]]];
    rewrite H; intros E; inversion E; subst.
  now exists m.
Qed.

(** The filter and the map of [getRelevantContext] keep what the
    specification says. *)
Lemma filter_map_retained (nts : float -> string) (found : list IndexMatch) :
  Retained found
    (map Vector.to_source (filter Vector.keep (map (Vector.copy_match nts) found))).
Proof.
  induction found as [|m found IH]; simpl.
  - constructor.
  - unfold Vector.keep at 1, Vector.metadata_content at 1. simpl.
    destruct (match_metadata m) as [md|] eqn:Hmd; simpl.
    + destruct (string_truthy (meta_content md)) eqn:Hc; simpl.
      * unfold Vector.to_source at 1, Vector.metadata_title,
          Vector.metadata_content. simpl. rewrite Hmd. simpl. rewrite Hc.
        replace (if string_truthy (meta_title md)
                 then meta_title md else "Information")
          with (title_of md)
          by (unfold title_of; destruct (meta_title md); reflexivity).
        eapply Retained_keep; eauto.
        now apply string_truthy_true.
      * eapply Retained_empty; eauto.
        now apply string_truthy_false.
    + now apply Retained_absent.
Qed.

(** [Retained] determines the kept sequence. *)
Lemma Retained_functional (found : list IndexMatch) (k1 k2 : list Vector.Source) :
  Retained found k1 -> Retained found k2 -> k1 = k2.
Proof.
  intros H1. revert k2.
  induction H1 as [| m md found kept Hmd Hc _ IH
                   | m md found kept Hmd Hc _ IH
                   | m found kept Hmd _ IH];
    intros k2 H2; inversion H2; subst; try congruence;
    try (now apply IH).
  assert (md0 = md) by congruence. subst md0.
  f_equal. now apply IH.
Qed.

(** Every kept fragment comes from a match of the service that carries a
    non-empty content, and keeps that content and the match's score. *)
Lemma Retained_sound (found : list IndexMatch) (kept : list Vector.Source) :
  Retained found kept ->
  forall s, In s kept ->
    exists m md,
      In m found /\ match_metadata m = Some md /\ meta_content md <> ""
      /\ Vector.content s = meta_content md
      /\ Vector.score s = match_score m.
Proof.
  induction 1 as [| m md found kept Hmd Hc _ IH
                  | m md found kept Hmd Hc _ IH
                  | m found kept Hmd _ IH];
    intros s Hs.
  - destruct Hs.
  - destruct Hs as [<- | Hs].
    + exists m, md. simpl. auto.
    + destruct (IH s Hs) as [m' [md' [Hin Hrest]]].
      exists m', md'. simpl. auto.
  - destruct (IH s Hs) as [m' [md' [Hin Hrest]]].
    exists m', md'. simpl. auto.
  - destruct (IH s Hs) as [m' [md' [Hin Hrest]]].
    exists m', md'. simpl. auto.
Qed.

(** No match with a non-empty content is lost. *)
Lemma Retained_complete (found : list IndexMatch) (kept : list Vector.Source) :
  Retained found kept ->
  forall m md,
    In m found -> match_metadata m = Some md -> meta_content md <> "" ->
    In {| Vector.title := title_of md;
          Vector.content := meta_content md;
          Vector.score := match_score m |} kept.
Proof.
  induction 1 as [| m0 md0 found kept Hmd Hc _ IH
                  | m0 md0 found kept Hmd Hc _ IH
                  | m0 found kept Hmd _ IH];
    intros m md Hin Hm Hne.
  - destruct Hin.
  - destruct Hin as [-> | Hin].
    + left. congruence.
    + right. now apply IH.
  - destruct Hin as [-> | Hin].
    + congruence.
    + now apply IH.
  - destruct Hin as [-> | Hin].
    + congruence.
    + now apply IH.
Qed.

(** C7.  Whatever sequence of matches the vector service answers with, the
    context retriever issues that one query and returns, in the order of the
    service, exactly the matches whose content is present and non-empty;
    matches without metadata or with an empty content are left out. *)
Theorem getRelevantContext_retains
        (w : World) (question : JSValue) (topK : Z) (found : list IndexMatch) :
  vector_configured w ->
  index_query w question topK = Ok found ->
  exists kept,
    Vector.getRelevantContext question topK w
    = ([EvIndexQuery question topK], Ok kept)
    /\ Retained found kept
    /\ (forall kept', Retained found kept' -> kept' = kept).
Proof.
  intros Hw Hq.
  exists (map Vector.to_source
              (filter Vector.keep (map (Vector.copy_match (Number_toString w)) found))).
  split; [|split].
  - rewrite getRelevantContext_run.
    now rewrite (queryVectors_ok _ _ Hw Hq).
  - apply filter_map_retained.
  - intros kept' H.
    eapply Retained_functional; [exact H | apply filter_map_retained].
Qed.

End VectorFacts.

Lemma getRelevantContext_retains_witness :
  Spec.vector_configured
    (Scenario.world
       [Scenario.skills; Scenario.hollow; Scenario.bare; Scenario.education]
       None)
  /\ exists kept,
      Vector.getRelevantContext (JS.JString "What are your technical skills?") 3
        (Scenario.world
           [Scenario.skills; Scenario.hollow; Scenario.bare; Scenario.education]
           None)
      = ([Eff.EvIndexQuery (JS.JString "What are your technical skills?") 3],
         JS.Ok kept)
      /\ Spec.Retained
           [Scenario.skills; Scenario.hollow; Scenario.bare; Scenario.education]
           kept
      /\ (forall kept',
             Spec.Retained
               [Scenario.skills; Scenario.hollow; Scenario.bare;
                Scenario.education]
               kept' ->
             kept' = kept).
Proof.
  split.
  - split; reflexivity.
  - apply VectorFacts.getRelevantContext_retains.
    + split; reflexivity.
    + reflexivity.
Defined.

(** On that answer of the service the retriever keeps the first and the last
    match, and gives the untitled one the default title. *)
Example getRelevantContext_example :
  Vector.getRelevantContext (JS.JString "What are your technical skills?") 3
    (Scenario.world
       [Scenario.skills; Scenario.hollow; Scenario.bare; Scenario.education]
       None)
  = ([Eff.EvIndexQuery (JS.JString "What are your technical skills?") 3],
     JS.Ok [ {| Vector.title := "Skills";
                Vector.content := "Go, TypeScript, distributed systems";
                Vector.score := 0.91%float |};
             {| Vector.title := "Information";
                Vector.content := "BSc in Computer Science";
                Vector.score := 0.55%float |} ]).
Proof. reflexivity. Qed.

(** ** Runs of the effect monad *)

Module EffFacts.
Import JS Eff.
Local Open Scope eff_scope.

Lemma bind_ok_inv {A B} (m : M A) (k : A -> M B) (w : World) (t : Trace) (b : B) :
  bind m k w = (t, Ok b) ->
  exists t1 a t2, m w = (t1, Ok a) /\ k a w = (t2, Ok b) /\ t = (t1 ++ t2)%list.
Proof.
  unfold bind.
  destruct (m w) as [t1 [a | e]]; [|discriminate].
  destruct (k a w) as [t2 r] eqn:Hk.
  intros H. inversion H; subst.
  now exists t1, a, t2.
Qed.

Lemma bind_throw_inv {A B} (m : M A) (k : A -> M B) (w : World) (t : Trace)
      (e : Thrown) :
  bind m k w = (t, Throw e) ->
  m w = (t, Throw e)
  \/ exists t1 a t2,
      m w = (t1, Ok a) /\ k a w = (t2, Throw e) /\ t = (t1 ++ t2)%list.
Proof.
  unfold bind.
  destruct (m w) as [t1 [a | e']].
  - destruct (k a w) as [t2 r] eqn:Hk.
    intros H. inversion H; subst.
    right. now exists t1, a, t2.
  - intros H. inversion H; subst. now left.
Qed.

Lemma try_rethrow_run {A} (m : M A) (label prefix : string) (w : World) :
  try_catch m (rethrow label prefix) w
  = match m w with
    | (t, Ok a) => (t, Ok a)
    | (t, Throw e) =>
        ((t ++ [EvConsoleError label e])%list,
         Throw (ErrorObject (prefix ++ message_or "Unknown error" e)))
    end.
Proof.
  unfold try_catch, rethrow, bind, console_error, emit, throw.
  destruct (m w) as [t [a | e]]; reflexivity.
Qed.

Lemma try_rethrow_error {A} (m : M A) (label prefix : string) (w : World)
      (t : Trace) (e : Thrown) :
  try_catch m (rethrow label prefix) w = (t, Throw e) ->
  exists msg, e = ErrorObject msg.
Proof.
  rewrite try_rethrow_run.
  destruct (m w) as [t' [a | e']]; intros H; inversion H; subst.
  eexists. reflexivity.
Qed.

End EffFacts.

(** ** The answer generator *)

Module GeneratorFacts.
Import JS Eff Spec EffFacts.

Lemma getGroqClient_configured (w : World) :
  groq_configured w ->
  Actions.getGroqClient w = ([], Ok {| Actions.apiKey := GROQ_API_KEY w |}).
Proof.
  intros Hk.
  unfold Actions.getGroqClient, bind, ask, ret, throw.
  now rewrite Hk.
Qed.

Lemma getGroqClient_unconfigured (w : World) :
  ~ groq_configured w ->
  Actions.getGroqClient w = ([], Throw (ErrorObject "GROQ_API_KEY not configured")).
Proof.
  intros Hk.
  unfold Actions.getGroqClient, bind, ask, ret, throw.
  destruct (env_missing (GROQ_API_KEY w)) eqn:E; [reflexivity|].
  exfalso. now apply Hk.
Qed.

Lemma generateResponse_ok (w : World) (prompt model : string) (c : ChatCompletion) :
  groq_configured w ->
  chat_completions_create w (Actions.completion_request prompt model) = Ok c ->
  Actions.generateResponse prompt model w
  = ([EvChatCompletion (Actions.completion_request prompt model)],
     Ok (Actions.completion_text c)).
Proof.
  intros Hk Hc.
  unfold Actions.generateResponse. rewrite try_rethrow_run.
  unfold bind. rewrite (getGroqClient_configured Hk).
  unfold Actions.Groq_create, bind, ask, emit, lift, ret. simpl.
  now rewrite Hc.
Qed.

(** With the key configured, the chat service is called exactly once, with
    the prompt as the only user message. *)
Lemma generateResponse_calls (w : World) (prompt model : string) :
  groq_configured w ->
  exists rest,
    fst (Actions.generateResponse prompt model w)
    = EvChatCompletion (Actions.completion_request prompt model) :: rest
    /\ forallb (fun ev => negb (is_generation ev)) rest = true.
Proof.
  intros Hk.
  unfold Actions.generateResponse. rewrite try_rethrow_run.
  unfold bind. rewrite (getGroqClient_configured Hk).
  unfold Actions.Groq_create, bind, ask, emit, lift, ret. simpl.
  destruct (chat_completions_create w _) as [c | e]; simpl.
  - exists []. now split.
  - eexists. split; reflexivity.
Qed.

Lemma generateResponse_throws_error (w : World) (prompt model : string)
      (t : Trace) (e : Thrown) :
  Actions.generateResponse prompt model w = (t, Throw e) ->
  exists m, e = ErrorObject m.
Proof.
  unfold Actions.generateResponse. apply try_rethrow_error.
Qed.

Lemma or_else_trim (s : string) :
  or_else (Some (trim s)) Actions.NO_RESPONSE
  = match trim s with
    | EmptyString => Actions.NO_RESPONSE
    | String _ _ => trim s
    end.
Proof.
  unfold or_else. now destruct (trim s).
Qed.

(** C8, as the code has it.  When the key is configured and the chat service
    answers with a completion, [generateResponse] makes that one call and
    returns normally.  If the first choice of the completion carries a text,
    the result is that text with its surrounding whitespace trimmed when
    something is left of it, and the fixed sentinel ["No response
    generated"] when the text is empty or whitespace only; if the
    completion has no choice, or its first choice no message, or the
    message no text, the result is the sentinel. *)
Theorem generateResponse_text
        (w : World) (prompt model : string) (c : ChatCompletion) :
  groq_configured w ->
  chat_completions_create w (Actions.completion_request prompt model) = Ok c ->
  exists text,
    Actions.generateResponse prompt model w
    = ([EvChatCompletion (Actions.completion_request prompt model)], Ok text)
    /\ (forall s others,
           choices c = {| message := Some {| content := Some s |} |} :: others ->
           trim s <> "" ->
           text = trim s /\ trimmed_of s text)
    /\ (forall s others,
           choices c = {| message := Some {| content := Some s |} |} :: others ->
           trim s = "" ->
           text = "No response generated")
    /\ (forall others,
           choices c = {| message := Some {| content := None |} |} :: others ->
           text = "No response generated")
    /\ (forall others,
           choices c = {| message := None |} :: others ->
           text = "No response generated")
    /\ (choices c = [] -> text = "No response generated").
Proof.
  intros Hk Hc.
  exists (Actions.completion_text c).
  split; [now apply generateResponse_ok|].
  unfold Actions.completion_text, Actions.first_content.
  split; [|split; [|split; [|split]]].
  - intros s others Hs Hne. rewrite Hs. cbn [nth_error message content option_map].
    rewrite or_else_trim.
    destruct (trim s) eqn:E; [congruence|].
    rewrite <- E. split; [reflexivity | apply TrimFacts.trim_trimmed].
  - intros s others Hs He. rewrite Hs. cbn [nth_error message content option_map].
    rewrite or_else_trim. now rewrite He.
  - intros others Hs. now rewrite Hs.
  - intros others Hs. now rewrite Hs.
  - intros Hs. now rewrite Hs.
Qed.

End GeneratorFacts.

Lemma generateResponse_text_witness :
  Spec.groq_configured (Scenario.world [] (Some "  I work with Go.
"))
  /\ exists text,
      Actions.generateResponse "Which languages?" Actions.DEFAULT_MODEL
        (Scenario.world [] (Some "  I work with Go.
"))
      = ([Eff.EvChatCompletion
            (Actions.completion_request "Which languages?" Actions.DEFAULT_MODEL)],
         JS.Ok text)
      /\ text = "I work with Go."
      /\ Spec.trimmed_of "  I work with Go.
" text.
Proof.
  split.
  - reflexivity.
  - destruct
      (@GeneratorFacts.generateResponse_text
         (Scenario.world [] (Some "  I work with Go.
"))
         "Which languages?" Actions.DEFAULT_MODEL
         {| Eff.choices :=
             [ {| Eff.message := Some {| Eff.content := Some "  I work with Go.
" |} |} ] |})
      as [text [Hrun [Htext _]]].
    + reflexivity.
    + reflexivity.
    + exists text. split; [exact Hrun|].
      exact (Htext "  I work with Go.
" [] eq_refl ltac:(discriminate)).
Defined.

Example generateResponse_example :
  Actions.generateResponse "Which languages?" Actions.DEFAULT_MODEL
    (Scenario.world [] (Some "  I work with Go.
"))
  = ([Eff.EvChatCompletion
        (Actions.completion_request "Which languages?" Actions.DEFAULT_MODEL)],
     JS.Ok "I work with Go.").
Proof. reflexivity. Qed.

(** A completion of one space is text, yet the generator does not return it
    trimmed (the empty string): it returns the sentinel. *)
Lemma generateResponse_blank_completion :
  Actions.first_content
    {| Eff.choices := [ {| Eff.message := Some {| Eff.content := Some " " |} |} ] |}
  = Some " "
  /\ Actions.generateResponse "Which languages?" Actions.DEFAULT_MODEL
       (Scenario.world [] (Some " "))
     = ([Eff.EvChatCompletion
           (Actions.completion_request "Which languages?" Actions.DEFAULT_MODEL)],
        JS.Ok "No response generated")
  /\ JS.trim " " = ""
  /\ "No response generated" <> JS.trim " ".
Proof.
  repeat split. discriminate.
Qed.

(** ** The RAG orchestrator *)

Module OrchestratorFacts.
Import JS Eff Spec EffFacts StringFacts.

(** The joined context of the code is the context block of the
    specification. *)
Lemma context_block_concat (sources : list Vector.Source) :
  context_block sources = String.concat blank_line (map entry sources).
Proof.
  induction sources as [|s rest IH]; [reflexivity|].
  destruct rest as [|s' rest]; [reflexivity|].
  change (context_block (s :: s' :: rest))
    with (entry s ++ blank_line ++ context_block (s' :: rest)).
  now rewrite IH.
Qed.

Lemma build_context_block (sources : list Vector.Source) :
  Actions.build_context sources = context_block sources.
Proof.
  unfold Actions.build_context.
  rewrite join_concat, context_block_concat.
  reflexivity.
Qed.

(** Around the entry of any fragment stand the blocks of the fragments
    before and after it. *)
Lemma context_block_split (before after : list Vector.Source) (s : Vector.Source) :
  context_block (before ++ s :: after)%list
  = lead before ++ entry s ++ trail after.
Proof.
  assert (T : String.concat blank_line (map entry (s :: after))
              = entry s ++ trail after).
  { destruct after as [|a after]; unfold trail.
    - simpl. now rewrite append_nil_r.
    - now rewrite context_block_concat. }
  destruct before as [|b before]; unfold lead.
  - rewrite context_block_concat. exact T.
  - rewrite !context_block_concat.
    rewrite map_app, concat_app by discriminate.
    now rewrite T, append_assoc.
Qed.

Lemma ragQuery_empty (w : World) (question : JSValue) (t : Trace) :
  Vector.getRelevantContext question 3 w = (t, Ok []) ->
  Actions.ragQuery question w
  = (t, Ok {| Actions.answer := Actions.NO_INFORMATION; Actions.sources := [] |}).
Proof.
  intros H.
  unfold Actions.ragQuery. rewrite try_rethrow_run.
  unfold bind. rewrite H. simpl.
  now rewrite app_nil_r.
Qed.

Lemma ragQuery_grounded (w : World) (question : JSValue) (q : string)
      (t : Trace) (sources : list Vector.Source) :
  Vector.getRelevantContext question 3 w = (t, Ok sources) ->
  sources <> [] ->
  ToString (Number_toString w) question = Ok q ->
  Actions.ragQuery question w
  = match Actions.generateResponse
            (Actions.build_prompt (Actions.build_context sources) q)
            Actions.DEFAULT_MODEL w
    with
    | (t2, Ok answer) =>
        ((t ++ t2)%list,
         Ok {| Actions.answer := answer; Actions.sources := sources |})
    | (t2, Throw e) =>
        ((t ++ t2 ++ [EvConsoleError "Error in RAG query:" e])%list,
         Throw (ErrorObject
                  ("RAG query failed: " ++ message_or "Unknown error" e)))
    end.
Proof.
  intros H Hne Hq.
  unfold Actions.ragQuery. rewrite try_rethrow_run.
  unfold bind at 1. rewrite H.
  destruct sources as [|s rest]; [congruence|].
  cbn [List.length Nat.eqb].
  unfold bind at 1, to_string, bind at 1, ask, lift. rewrite Hq.
  cbn [app].
  unfold bind.
  destruct (Actions.generateResponse _ _ w) as [t2 [a | e]]; cbn.
  - now rewrite app_nil_r.
  - now rewrite app_assoc.
Qed.

Lemma ragQuery_throws_error (w : World) (question : JSValue)
      (t : Trace) (e : Thrown) :
  Actions.ragQuery question w = (t, Throw e) ->
  exists m, e = ErrorObject m.
Proof.
  unfold Actions.ragQuery. apply try_rethrow_error.
Qed.

(** C1.  When the context retriever returns an empty sequence for a
    question, [ragQuery] returns the fixed "no information" answer with an
    empty list of sources, and the run does nothing beyond the retrieval: the
    chat service is not called. *)
Theorem ragQuery_without_context
        (w : World) (question : JSValue) (t : Trace) :
  Vector.getRelevantContext question 3 w = (t, Ok []) ->
  Actions.ragQuery question w
  = (t, Ok {| Actions.answer := "I don't have specific information about that topic.";
              Actions.sources := [] |})
  /\ forallb (fun ev => negb (is_generation ev))
             (fst (Actions.ragQuery question w)) = true.
Proof.
  intros H.
  rewrite (ragQuery_empty _ _ H).
  split; [reflexivity|].
  cbn [fst].
  pose proof (VectorFacts.getRelevantContext_no_generation w question 3) as G.
  now rewrite H in G.
Qed.

(** C6.  When retrieval returns at least one fragment, [ragQuery] calls the
    answer generator with a prompt that embeds the context block and the
    question; the block holds ["<title>: <content>"] for every fragment, in
    the order of retrieval, consecutive fragments separated by a blank
    line.  With the key configured, that prompt is what the chat service
    receives as the user message. *)
Theorem ragQuery_prompt
        (w : World) (question : JSValue) (q : string)
        (t : Trace) (sources : list Vector.Source) :
  Vector.getRelevantContext question 3 w = (t, Ok sources) ->
  sources <> [] ->
  ToString (Number_toString w) question = Ok q ->
  let prompt :=
    "Based on the following information about yourself, answer the question.
Speak in first person as if you are describing your own background.

Your Information:
" ++ context_block sources ++ "

Question: " ++ q ++ "

Provide a helpful, professional response:" in
  Actions.ragQuery question w
  = match Actions.generateResponse prompt Actions.DEFAULT_MODEL w with
    | (t2, Ok answer) =>
        ((t ++ t2)%list,
         Ok {| Actions.answer := answer; Actions.sources := sources |})
    | (t2, Throw e) =>
        ((t ++ t2 ++ [EvConsoleError "Error in RAG query:" e])%list,
         Throw (ErrorObject
                  ("RAG query failed: " ++ message_or "Unknown error" e)))
    end
  /\ (groq_configured w ->
      In (EvChatCompletion
            (Actions.completion_request prompt Actions.DEFAULT_MODEL))
         (fst (Actions.ragQuery question w)))
  /\ (forall before s after,
         sources = (before ++ s :: after)%list ->
         context_block sources
         = lead before ++ (Vector.title s ++ ": " ++ Vector.content s)
                ++ trail after).
Proof.
  intros H Hne Hq prompt.
  assert (E : Actions.build_prompt (Actions.build_context sources) q = prompt)
    by (unfold Actions.build_prompt; now rewrite build_context_block).
  pose proof (ragQuery_grounded w question H Hne Hq) as R. rewrite E in R.
  split; [exact R|]. split.
  - intros Hk. rewrite R.
    destruct (GeneratorFacts.generateResponse_calls prompt Actions.DEFAULT_MODEL Hk)
      as [rest [Ht _]].
    destruct (Actions.generateResponse prompt Actions.DEFAULT_MODEL w)
      as [t2 [a | e]]; cbn [fst] in *; subst t2;
      apply in_or_app; right; now left.
  - intros before s after ->. apply context_block_split.
Qed.

End OrchestratorFacts.

Lemma ragQuery_without_context_witness :
  Vector.getRelevantContext (JS.JString "tell me about quantum cooking") 3
    (Scenario.world [Scenario.hollow; Scenario.bare] (Some "unused"))
  = ([Eff.EvIndexQuery (JS.JString "tell me about quantum cooking") 3], JS.Ok [])
  /\ Actions.ragQuery (JS.JString "tell me about quantum cooking")
       (Scenario.world [Scenario.hollow; Scenario.bare] (Some "unused"))
     = ([Eff.EvIndexQuery (JS.JString "tell me about quantum cooking") 3],
        JS.Ok {| Actions.answer := "I don't have specific information about that topic.";
                 Actions.sources := [] |})
  /\ forallb (fun ev => negb (Eff.is_generation ev))
             (fst (Actions.ragQuery (JS.JString "tell me about quantum cooking")
                     (Scenario.world [Scenario.hollow; Scenario.bare]
                        (Some "unused"))))
     = true.
Proof.
  split.
  - reflexivity.
  - apply OrchestratorFacts.ragQuery_without_context. reflexivity.
Defined.

Lemma ragQuery_prompt_witness :
  In (Eff.EvChatCompletion
        (Actions.completion_request
           "Based on the following information about yourself, answer the question.
Speak in first person as if you are describing your own background.

Your Information:
Skills: Go, TypeScript, distributed systems

Information: BSc in Computer Science

Question: What are your technical skills?

Provide a helpful, professional response:"
           Actions.DEFAULT_MODEL))
     (fst (Actions.ragQuery (JS.JString "What are your technical skills?")
             (Scenario.world [Scenario.skills; Scenario.hollow; Scenario.education]
                (Some "I work with Go and TypeScript.")))).
Proof.
  destruct
    (@OrchestratorFacts.ragQuery_prompt
       (Scenario.world [Scenario.skills; Scenario.hollow; Scenario.education]
          (Some "I work with Go and TypeScript."))
       (JS.JString "What are your technical skills?")
       "What are your technical skills?"
       [Eff.EvIndexQuery (JS.JString "What are your technical skills?") 3]
       [ {| Vector.title := "Skills";
            Vector.content := "Go, TypeScript, distributed systems";
            Vector.score := 0.91%float |};
         {| Vector.title := "Information";
            Vector.content := "BSc in Computer Science";
            Vector.score := 0.55%float |} ])
    as [_ [called _]].
  - reflexivity.
  - discriminate.
  - reflexivity.
  - apply called. reflexivity.
Defined.

(** The example of the specification, end to end. *)
Example ragQuery_example :
  Actions.ragQuery (JS.JString "What are your technical skills?")
    (Scenario.world [Scenario.skills] (Some " I work with Go and TypeScript. "))
  = ([ Eff.EvIndexQuery (JS.JString "What are your technical skills?") 3;
       Eff.EvChatCompletion
         (Actions.completion_request
            "Based on the following information about yourself, answer the question.
Speak in first person as if you are describing your own background.

Your Information:
Skills: Go, TypeScript, distributed systems

Question: What are your technical skills?

Provide a helpful, professional response:"
            Actions.DEFAULT_MODEL) ],
     JS.Ok {| Actions.answer := "I work with Go and TypeScript.";
              Actions.sources :=
                [ {| Vector.title := "Skills";
                     Vector.content := "Go, TypeScript, distributed systems";
                     Vector.score := 0.91%float |} ] |}).
Proof. reflexivity. Qed.

(** ** Conversion to string *)

Module ToStringFacts.
Import JS.

(** The only failure of the conversion is the TypeError of an object that
    cannot be made a primitive. *)
Lemma ToString_throws (nts : float -> string) (v : JSValue) (e : Thrown) :
  ToString nts v = Throw e ->
  e = ErrorObject "Cannot convert object to primitive value".
Proof.
  revert v e. fix IH 1.
  intros v e. destruct v as [| | b | n | s | items | fields]; simpl;
    try discriminate.
  - match goal with
    | |- ?F items true = Throw e -> ?C =>
        enough (G : forall first : bool, F items first = Throw e -> C)
          by exact (G true)
    end.
    induction items as [|x rest IHrest]; intros first; [discriminate|].
    destruct (nullish x) eqn:Hx.
    + destruct ((fix join_items (l : list JSValue) (first : bool) := _) rest false)
        as [t | e'] eqn:Hrest; [discriminate|].
      intros H. inversion H; subst. now apply IHrest with (first := false).
    + destruct (ToString nts x) as [sx | ex] eqn:Hsx.
      * destruct ((fix join_items (l : list JSValue) (first : bool) := _) rest false)
          as [t | e'] eqn:Hrest; [discriminate|].
        intros H. inversion H; subst. now apply IHrest with (first := false).
      * intros H. inversion H; subst. now apply IH with (v := x).
  - destruct (has_own "toString" fields); [|discriminate].
    intros H. now inversion H.
Qed.

End ToStringFacts.

(** ** The tool server *)

Module RouteFacts.
Import JS Eff Spec EffFacts.

Lemma to_string_run (w : World) (v : JSValue) :
  to_string v w = ([], ToString (Number_toString w) v).
Proof.
  unfold to_string, bind, ask, lift. reflexivity.
Qed.

Lemma getVectorInfo_throws_error (w : World) (t : Trace) (e : Thrown) :
  Vector.getVectorInfo w = (t, Throw e) -> exists m, e = ErrorObject m.
Proof.
  unfold Vector.getVectorInfo. apply try_rethrow_error.
Qed.

Lemma answers_shape (i : JSValue) (resp : Route.MCPResponse) :
  answers i resp -> Route.id resp = i /\ one_of_result_error resp.
Proof.
  intros [[r ->] | [c [m ->]]]; split; try reflexivity.
  - left. split; [discriminate | reflexivity].
  - right. split; [reflexivity | discriminate].
Qed.

Ltac ret_inv H :=
  unfold ret in H; inversion H; subst; clear H.

Lemma tools_call_answers (w : World) (i params : JSValue) (t : Trace)
      (resp : Route.MCPResponse) :
  Route.tools_call i params w = (t, Ok resp) -> answers i resp.
Proof.
  unfold Route.tools_call.
  destruct (strict_eq_string (opt_prop params "name") "ask_digital_twin").
  - destruct (truthy _); cbn [negb].
    + intros H. apply bind_ok_inv in H as [t1 [a [t2 [_ [H _]]]]].
      ret_inv H. left. eexists. reflexivity.
    + intros H. ret_inv H. right. do 2 eexists. reflexivity.
  - destruct (strict_eq_string (opt_prop params "name") "get_profile_info").
    + intros H. apply bind_ok_inv in H as [t1 [a [t2 [_ [H _]]]]].
      apply bind_ok_inv in H as [t3 [w' [t4 [_ [H _]]]]].
      ret_inv H. left. eexists. reflexivity.
    + intros H. apply bind_ok_inv in H as [t1 [a [t2 [_ [H _]]]]].
      ret_inv H. right. do 2 eexists. reflexivity.
Qed.

Lemma dispatch_answers (w : World) (i method params : JSValue) (t : Trace)
      (resp : Route.MCPResponse) :
  Route.dispatch i method params w = (t, Ok resp) -> answers i resp.
Proof.
  unfold Route.dispatch.
  destruct (strict_eq_string method "initialize").
  { intros H. ret_inv H. left. eexists. reflexivity. }
  destruct (strict_eq_string method "tools/list").
  { intros H. ret_inv H. left. eexists. reflexivity. }
  destruct (strict_eq_string method "tools/call").
  { apply tools_call_answers. }
  intros H. apply bind_ok_inv in H as [t1 [a [t2 [_ [H _]]]]].
  ret_inv H. right. do 2 eexists. reflexivity.
Qed.

Lemma to_string_throws_error (w : World) (v : JSValue) (t : Trace) (e : Thrown) :
  to_string v w = (t, Throw e) -> exists m, e = ErrorObject m.
Proof.
  rewrite to_string_run. intros H. inversion H as [[Ht He]].
  apply ToStringFacts.ToString_throws in He. subst. eexists. reflexivity.
Qed.

Ltac throw_inv H :=
  apply bind_throw_inv in H as [H | [? [? [? [_ [H _]]]]]].

Lemma tools_call_throws_error (w : World) (i params : JSValue) (t : Trace)
      (e : Thrown) :
  Route.tools_call i params w = (t, Throw e) -> exists m, e = ErrorObject m.
Proof.
  unfold Route.tools_call.
  destruct (strict_eq_string (opt_prop params "name") "ask_digital_twin").
  - destruct (truthy _); cbn [negb].
    + intros H. throw_inv H.
      * now apply OrchestratorFacts.ragQuery_throws_error in H.
      * discriminate H.
    + discriminate.
  - destruct (strict_eq_string (opt_prop params "name") "get_profile_info").
    + intros H. throw_inv H.
      * now apply getVectorInfo_throws_error in H.
      * throw_inv H; discriminate H.
    + intros H. throw_inv H.
      * now apply to_string_throws_error in H.
      * discriminate H.
Qed.

Lemma dispatch_throws_error (w : World) (i method params : JSValue) (t : Trace)
      (e : Thrown) :
  Route.dispatch i method params w = (t, Throw e) -> exists m, e = ErrorObject m.
Proof.
  unfold Route.dispatch.
  destruct (strict_eq_string method "initialize"); [discriminate|].
  destruct (strict_eq_string method "tools/list"); [discriminate|].
  destruct (strict_eq_string method "tools/call").
  { apply tools_call_throws_error. }
  intros H. throw_inv H.
  - now apply to_string_throws_error in H.
  - discriminate H.
Qed.

(** What [handleMCPRequest] does with a request it can destructure. *)
Lemma handleMCPRequest_run (w : World) (request : JSValue) :
  nullish request = false ->
  Route.handleMCPRequest request w
  = match Route.dispatch (prop request "id") (prop request "method")
            (prop request "params") w
    with
    | (t, Ok resp) => (t, Ok resp)
    | (t, Throw e) =>
        (t, Ok (Route.failure (prop request "id") (-32603)
                  (message_or "Internal error" e)))
    end.
Proof.
  intros Hn. unfold Route.handleMCPRequest, try_catch. rewrite Hn.
  destruct (Route.dispatch _ _ _ w) as [t [resp | e]]; [reflexivity|].
  unfold ret. now rewrite app_nil_r.
Qed.

Lemma handleMCPRequest_nullish (w : World) (request : JSValue) :
  nullish request = true ->
  exists e, Route.handleMCPRequest request w = ([], Throw e).
Proof.
  intros Hn. unfold Route.handleMCPRequest. rewrite Hn.
  eexists. reflexivity.
Qed.

Lemma handleMCPRequest_total (w : World) (request : JSValue) :
  nullish request = false ->
  exists t resp, Route.handleMCPRequest request w = (t, Ok resp).
Proof.
  intros Hn. rewrite (handleMCPRequest_run w request Hn).
  destruct (Route.dispatch _ _ _ w) as [t [resp | e]]; do 2 eexists; reflexivity.
Qed.

Lemma POST_total (w : World) (http : Route.NextRequest) :
  exists t r, Route.POST http w = (t, Ok r).
Proof.
  unfold Route.POST, try_catch, bind, lift, ret.
  destruct (Route.json http) as [v | e]; [|do 2 eexists; reflexivity].
  destruct (Route.handleMCPRequest v w) as [t [resp | e]];
    do 2 eexists; reflexivity.
Qed.

(** C2.  Whenever [handleMCPRequest] answers a request -- whatever the method
    and the tool, whether dispatch succeeded or failed -- the response
    carries the request's [id] unchanged and exactly one of [result] and
    [error]. *)
Theorem handleMCPRequest_envelope
        (w : World) (request : JSValue) (t : Trace) (resp : Route.MCPResponse) :
  Route.handleMCPRequest request w = (t, Ok resp) ->
  Route.id resp = prop request "id"
  /\ ((Route.result resp <> None /\ Route.error resp = None)
      \/ (Route.result resp = None /\ Route.error resp <> None)).
Proof.
  intros H.
  destruct (nullish request) eqn:Hn.
  - destruct (handleMCPRequest_nullish w request Hn) as [e He].
    rewrite He in H. discriminate.
  - rewrite (handleMCPRequest_run w request Hn) in H.
    apply answers_shape.
    destruct (Route.dispatch _ _ _ w) as [t' [resp' | e]] eqn:Hd.
    + inversion H; subst. now apply dispatch_answers in Hd.
    + inversion H; subst. right. do 2 eexists. reflexivity.
Qed.

(** C5, as the code has it.  When dispatch throws -- the orchestrator, the
    retriever or the status query failed, or a name could not be shown --
    [handleMCPRequest] catches the exception and answers with code [-32603],
    the message of the failure and the request's [id]; it returns a response
    for every request it can destructure, that is every request but [null],
    and [POST] returns a response for every request. *)
Theorem handleMCPRequest_catches
        (w : World) (request : JSValue) (t : Trace) (e : Thrown) :
  nullish request = false ->
  Route.dispatch (prop request "id") (prop request "method")
    (prop request "params") w = (t, Throw e) ->
  (exists m,
      e = ErrorObject m
      /\ Route.handleMCPRequest request w
         = (t, Ok {| Route.jsonrpc := "2.0";
                     Route.id := prop request "id";
                     Route.result := None;
                     Route.error :=
                       Some {| Route.code := -32603; Route.message := m |} |}))
  /\ (forall request' : JSValue,
         nullish request' = false ->
         exists t' resp, Route.handleMCPRequest request' w = (t', Ok resp))
  /\ (forall http : Route.NextRequest,
         exists t' r, Route.POST http w = (t', Ok r)).
Proof.
  intros Hn Hd. split; [|split].
  - destruct (dispatch_throws_error _ _ _ _ Hd) as [m ->].
    exists m. split; [reflexivity|].
    rewrite (handleMCPRequest_run w request Hn), Hd. reflexivity.
  - intros request'. apply handleMCPRequest_total.
  - apply POST_total.
Qed.

(** A call of [ask_digital_twin] whose question is falsy is refused before
    anything else happens. *)
Lemma ask_refused (w : World) (request : JSValue) :
  calls_tool request "ask_digital_twin" ->
  truthy (question_of request) = false ->
  Route.handleMCPRequest request w
  = ([], Ok (Route.failure (prop request "id") (-32602)
               "Missing required parameter: question")).
Proof.
  intros [Hm Ht] Hq.
  assert (Hn : nullish request = false)
    by (destruct request; try reflexivity; discriminate Hm).
  rewrite (handleMCPRequest_run w request Hn).
  unfold Route.dispatch. rewrite Hm.
  cbn [strict_eq_string String.eqb Ascii.eqb Bool.eqb].
  unfold Route.tools_call. rewrite Ht.
  cbn [strict_eq_string String.eqb Ascii.eqb Bool.eqb].
  unfold question_of in Hq. rewrite Hq.
  reflexivity.
Qed.

(** C3.  A [tools/call] request for [ask_digital_twin] whose arguments have
    no [question] is answered with error code [-32602], and the run has no
    effect at all: neither the vector index nor the chat service is
    called. *)
Theorem ask_without_question (w : World) (request : JSValue) :
  calls_tool request "ask_digital_twin" ->
  question_of request = JUndefined ->
  Route.handleMCPRequest request w
  = ([], Ok {| Route.jsonrpc := "2.0";
               Route.id := prop request "id";
               Route.result := None;
               Route.error :=
                 Some {| Route.code := -32602;
                         Route.message := "Missing required parameter: question" |} |}).
Proof.
  intros Hc Hq.
  rewrite (ask_refused w Hc); [reflexivity|].
  now rewrite Hq.
Qed.

(** C10.  A [tools/call] request for [ask_digital_twin] whose [question] is
    present but falsy (the empty string, [0], [false], [null]) gets the very
    response of a request with the same [id] and no [question]: error code
    [-32602], with no call to the orchestrator or to any service. *)
Theorem ask_with_falsy_question (w : World) (request missing : JSValue) :
  calls_tool request "ask_digital_twin" ->
  truthy (question_of request) = false ->
  calls_tool missing "ask_digital_twin" ->
  question_of missing = JUndefined ->
  prop missing "id" = prop request "id" ->
  Route.handleMCPRequest request w = Route.handleMCPRequest missing w
  /\ Route.handleMCPRequest request w
     = ([], Ok {| Route.jsonrpc := "2.0";
                  Route.id := prop request "id";
                  Route.result := None;
                  Route.error :=
                    Some {| Route.code := -32602;
                            Route.message := "Missing required parameter: question" |} |}).
Proof.
  intros Hc Hq Hc' Hq' Hid.
  rewrite (ask_refused w Hc Hq).
  rewrite (ask_refused w Hc') by now rewrite Hq'.
  rewrite Hid. split; reflexivity.
Qed.

Lemma json_not_null (v : JSValue) :
  is_json v = true -> v <> JNull -> nullish v = false.
Proof.
  destruct v; simpl; congruence.
Qed.

(** C4, as the code has it.  A body that is not JSON text is answered with
    status 400, code [-32700] and a [null] id, and nothing is dispatched; a
    body that decodes to any value other than [null] ([JSON.parse] never
    returns [undefined]) is handled, and whatever [handleMCPRequest]
    answers -- a result or an RPC error -- is sent with status 200. *)
Theorem POST_status (w : World) (http : Route.NextRequest) :
  (forall e, Route.json http = Throw e ->
     Route.POST http w
     = ([], Ok {| Route.status := 400;
                  Route.body :=
                    {| Route.jsonrpc := "2.0";
                       Route.id := JNull;
                       Route.result := None;
                       Route.error :=
                         Some {| Route.code := -32700;
                                 Route.message := "Parse error" |} |} |}))
  /\ (forall v, Route.json http = Ok v -> v <> JUndefined -> v <> JNull ->
        exists t resp,
          Route.handleMCPRequest v w = (t, Ok resp)
          /\ Route.POST http w
             = (t, Ok {| Route.status := 200; Route.body := resp |})).
Proof.
  split.
  - intros e He. unfold Route.POST, try_catch, bind, lift. now rewrite He.
  - intros v Hv Hu Hnn.
    assert (Hn : nullish v = false) by (destruct v; simpl; congruence).
    destruct (handleMCPRequest_total w v Hn) as [t [resp Hh]].
    exists t, resp. split; [exact Hh|].
    unfold Route.POST, try_catch, bind, lift. rewrite Hv, Hh.
    unfold ret, Route.NextResponse_json. cbn. now rewrite app_nil_r.
Qed.

(** C9, as the code has it.  [GET] always answers with status 200 and the
    payload [{status, server, version, tools}]: the server's name and the
    server's version, both as [initialize] declares them in [serverInfo],
    and the names of the tools of [TOOLS], in order. *)
Theorem GET_payload (w : World) :
  Route.GET w
  = ([], Ok {| Route.status := 200;
               Route.body :=
                 {| Route.health_status := "ok";
                    Route.server := "digital-twin-mcp";
                    Route.version := "1.0.0";
                    Route.tools := ["ask_digital_twin"; "get_profile_info"] |} |})
  /\ map Route.name Route.TOOLS = ["ask_digital_twin"; "get_profile_info"]
  /\ prop (prop Route.initialize_result "serverInfo") "name"
     = JString "digital-twin-mcp"
  /\ prop (prop Route.initialize_result "serverInfo") "version"
     = JString "1.0.0".
Proof.
  repeat split.
Qed.

End RouteFacts.

(** ** The statements at work *)

Lemma handleMCPRequest_envelope_witness :
  exists t resp,
    Route.handleMCPRequest
      (Scenario.call (JS.JString "req-1") "ask_digital_twin"
         (JS.JObject [("question", JS.JString "What are your technical skills?")]))
      (Scenario.world [Scenario.skills] (Some "I work with Go."))
    = (t, JS.Ok resp)
    /\ Route.id resp = JS.JString "req-1"
    /\ ((Route.result resp <> None /\ Route.error resp = None)
        \/ (Route.result resp = None /\ Route.error resp <> None)).
Proof.
  do 2 eexists. split.
  - cbv. reflexivity.
  - apply (@RouteFacts.handleMCPRequest_envelope
             (Scenario.world [Scenario.skills] (Some "I work with Go."))
             (Scenario.call (JS.JString "req-1") "ask_digital_twin"
                (JS.JObject
                   [("question", JS.JString "What are your technical skills?")]))
             [ Eff.EvIndexQuery (JS.JString "What are your technical skills?") 3;
               Eff.EvChatCompletion
                 (Actions.completion_request
                    (Actions.build_prompt
                       "Skills: Go, TypeScript, distributed systems"
                       "What are your technical skills?")
                    Actions.DEFAULT_MODEL) ]).
    reflexivity.
Defined.

(** The answer of [ask_digital_twin]: a text block and the sources. *)
Example ask_digital_twin_example :
  snd (Route.handleMCPRequest
         (Scenario.call (JS.JNumber 7%float) "ask_digital_twin"
            (JS.JObject [("question", JS.JString "What are your technical skills?")]))
         (Scenario.world [Scenario.skills] (Some "I work with Go.")))
  = JS.Ok
      {| Route.jsonrpc := "2.0";
         Route.id := JS.JNumber 7%float;
         Route.result :=
           Some
             (JS.JObject
                [ ("content",
                    JS.JArray
                      [ JS.JObject
                          [ ("type", JS.JString "text");
                            ("text", JS.JString "I work with Go.") ] ]);
                  ("metadata",
                    JS.JObject
                      [ ("sources",
                          JS.JArray
                            [ JS.JObject
                                [ ("title", JS.JString "Skills");
                                  ("relevance", JS.JNumber 0.91%float) ] ]) ]) ]);
         Route.error := None |}.
Proof. reflexivity. Qed.

(** An unknown tool and an unknown method are both answered with [-32601]. *)
Example unknown_tool_example :
  Route.handleMCPRequest
    (Scenario.call JS.JNull "forget_everything" (JS.JObject []))
    Scenario.unconfigured
  = ([], JS.Ok (Route.failure JS.JNull (-32601) "Unknown tool: forget_everything")).
Proof. reflexivity. Qed.

Example unknown_method_example :
  Route.handleMCPRequest (JS.JObject [("id", JS.JString "a")]) Scenario.unconfigured
  = ([], JS.Ok (Route.failure (JS.JString "a") (-32601) "Method not found: undefined")).
Proof. reflexivity. Qed.

(** A tool name that cannot be shown makes dispatch throw; the handler
    answers with [-32603]. *)
Example unshowable_tool_example :
  Route.handleMCPRequest
    (JS.JObject
       [ ("id", JS.JNumber 3%float);
         ("method", JS.JString "tools/call");
         ("params",
           JS.JObject [("name", JS.JObject [("toString", JS.JNull)])]) ])
    Scenario.unconfigured
  = ([], JS.Ok (Route.failure (JS.JNumber 3%float) (-32603)
                  "Cannot convert object to primitive value")).
Proof. reflexivity. Qed.

Lemma handleMCPRequest_catches_witness :
  Route.dispatch (JS.JNumber 1%float) (JS.JString "tools/call")
    (JS.JObject [("name", JS.JString "get_profile_info");
                 ("arguments", JS.JObject [])])
    Scenario.unconfigured
  = ([Eff.EvConsoleError "Error getting vector info:"
        (JS.ErrorObject "Upstash Vector credentials not configured")],
     JS.Throw
       (JS.ErrorObject
          "Failed to get vector info: Upstash Vector credentials not configured"))
  /\ exists m,
      JS.ErrorObject
        "Failed to get vector info: Upstash Vector credentials not configured"
      = JS.ErrorObject m
      /\ Route.handleMCPRequest
           (Scenario.call (JS.JNumber 1%float) "get_profile_info" (JS.JObject []))
           Scenario.unconfigured
         = ([Eff.EvConsoleError "Error getting vector info:"
               (JS.ErrorObject "Upstash Vector credentials not configured")],
            JS.Ok {| Route.jsonrpc := "2.0";
                     Route.id := JS.JNumber 1%float;
                     Route.result := None;
                     Route.error :=
                       Some {| Route.code := -32603; Route.message := m |} |}).
Proof.
  split.
  - reflexivity.
  - apply (@RouteFacts.handleMCPRequest_catches
             Scenario.unconfigured
             (Scenario.call (JS.JNumber 1%float) "get_profile_info" (JS.JObject []))
             [Eff.EvConsoleError "Error getting vector info:"
                (JS.ErrorObject "Upstash Vector credentials not configured")]
             (JS.ErrorObject
                "Failed to get vector info: Upstash Vector credentials not configured")).
    + reflexivity.
    + reflexivity.
Defined.

(** The request [null] is not destructured: the TypeError is thrown before
    the [try] block is entered, and leaves [handleMCPRequest]. *)
Lemma handleMCPRequest_null_escapes :
  Route.handleMCPRequest JS.JNull
    (Scenario.world [Scenario.skills] (Some "I work with Go."))
  = ([], JS.Throw
           (JS.ErrorObject
              "Cannot destructure property 'id' of 'request' as it is null.")).
Proof. reflexivity. Qed.

(** A failure of the orchestrator reaches the client with its whole chain of
    messages. *)
Example orchestrator_failure_example :
  snd (Route.handleMCPRequest
         (Scenario.call (JS.JNumber 1%float) "ask_digital_twin"
            (JS.JObject [("question", JS.JString "Who are you?")]))
         Scenario.unconfigured)
  = JS.Ok (Route.failure (JS.JNumber 1%float) (-32603)
             "RAG query failed: Failed to query vectors: Upstash Vector credentials not configured").
Proof. reflexivity. Qed.

Lemma ask_without_question_witness :
  Spec.calls_tool
    (Scenario.call (JS.JString "req-2") "ask_digital_twin" (JS.JObject []))
    "ask_digital_twin"
  /\ Route.handleMCPRequest
       (Scenario.call (JS.JString "req-2") "ask_digital_twin" (JS.JObject []))
       (Scenario.world [Scenario.skills] (Some "I work with Go."))
     = ([], JS.Ok {| Route.jsonrpc := "2.0";
                     Route.id := JS.JString "req-2";
                     Route.result := None;
                     Route.error :=
                       Some {| Route.code := -32602;
                               Route.message := "Missing required parameter: question" |} |}).
Proof.
  split.
  - split; reflexivity.
  - apply (@RouteFacts.ask_without_question
             (Scenario.world [Scenario.skills] (Some "I work with Go."))
             (Scenario.call (JS.JString "req-2") "ask_digital_twin" (JS.JObject []))).
    + split; reflexivity.
    + reflexivity.
Defined.

(** The same holds when the request has no [arguments], or no [params]. *)
Example ask_without_arguments_example :
  Route.handleMCPRequest
    (JS.JObject
       [ ("id", JS.JNumber 5%float);
         ("method", JS.JString "tools/call");
         ("params", JS.JObject [("name", JS.JString "ask_digital_twin")]) ])
    (Scenario.world [Scenario.skills] (Some "I work with Go."))
  = ([], JS.Ok (Route.failure (JS.JNumber 5%float) (-32602)
                  "Missing required parameter: question")).
Proof. reflexivity. Qed.

Lemma ask_with_falsy_question_witness :
  JS.truthy
    (Spec.question_of
       (Scenario.call (JS.JString "req-3") "ask_digital_twin"
          (JS.JObject [("question", JS.JString "")])))
  = false
  /\ Route.handleMCPRequest
       (Scenario.call (JS.JString "req-3") "ask_digital_twin"
          (JS.JObject [("question", JS.JString "")]))
       (Scenario.world [Scenario.skills] (Some "I work with Go."))
     = Route.handleMCPRequest
         (Scenario.call (JS.JString "req-3") "ask_digital_twin" (JS.JObject []))
         (Scenario.world [Scenario.skills] (Some "I work with Go."))
  /\ Route.handleMCPRequest
       (Scenario.call (JS.JString "req-3") "ask_digital_twin"
          (JS.JObject [("question", JS.JString "")]))
       (Scenario.world [Scenario.skills] (Some "I work with Go."))
     = ([], JS.Ok {| Route.jsonrpc := "2.0";
                     Route.id := JS.JString "req-3";
                     Route.result := None;
                     Route.error :=
                       Some {| Route.code := -32602;
                               Route.message := "Missing required parameter: question" |} |}).
Proof.
  split.
  - reflexivity.
  - apply (@RouteFacts.ask_with_falsy_question
             (Scenario.world [Scenario.skills] (Some "I work with Go."))
             (Scenario.call (JS.JString "req-3") "ask_digital_twin"
                (JS.JObject [("question", JS.JString "")]))
             (Scenario.call (JS.JString "req-3") "ask_digital_twin" (JS.JObject []))).
    + split; reflexivity.
    + reflexivity.
    + split; reflexivity.
    + reflexivity.
    + reflexivity.
Defined.

(** The other falsy JSON values: zero, [false] and [null]. *)
Example ask_with_zero_example :
  Route.handleMCPRequest
    (Scenario.call (JS.JNumber 9%float) "ask_digital_twin"
       (JS.JObject [("question", JS.JNumber 0%float)]))
    (Scenario.world [Scenario.skills] (Some "I work with Go."))
  = ([], JS.Ok (Route.failure (JS.JNumber 9%float) (-32602)
                  "Missing required parameter: question")).
Proof. reflexivity. Qed.

Example ask_with_false_example :
  Route.handleMCPRequest
    (Scenario.call (JS.JNumber 9%float) "ask_digital_twin"
       (JS.JObject [("question", JS.JBool false)]))
    (Scenario.world [Scenario.skills] (Some "I work with Go."))
  = ([], JS.Ok (Route.failure (JS.JNumber 9%float) (-32602)
                  "Missing required parameter: question")).
Proof. reflexivity. Qed.

Example ask_with_null_example :
  Route.handleMCPRequest
    (Scenario.call (JS.JNumber 9%float) "ask_digital_twin"
       (JS.JObject [("question", JS.JNull)]))
    (Scenario.world [Scenario.skills] (Some "I work with Go."))
  = ([], JS.Ok (Route.failure (JS.JNumber 9%float) (-32602)
                  "Missing required parameter: question")).
Proof. reflexivity. Qed.

Lemma POST_status_witness :
  Route.POST {| Route.json := JS.Throw (JS.ErrorObject "Unexpected end of JSON input") |}
    (Scenario.world [Scenario.skills] (Some "I work with Go."))
  = ([], JS.Ok {| Route.status := 400;
                  Route.body :=
                    {| Route.jsonrpc := "2.0";
                       Route.id := JS.JNull;
                       Route.result := None;
                       Route.error :=
                         Some {| Route.code := -32700;
                                 Route.message := "Parse error" |} |} |})
  /\ exists t resp,
      Route.handleMCPRequest
        (Scenario.call (JS.JNumber 2%float) "no_such_tool" (JS.JObject []))
        (Scenario.world [Scenario.skills] (Some "I work with Go."))
      = (t, JS.Ok resp)
      /\ Route.POST
           {| Route.json :=
               JS.Ok (Scenario.call (JS.JNumber 2%float) "no_such_tool" (JS.JObject [])) |}
           (Scenario.world [Scenario.skills] (Some "I work with Go."))
         = (t, JS.Ok {| Route.status := 200; Route.body := resp |}).
Proof.
  split.
  - apply (proj1 (RouteFacts.POST_status
                    (Scenario.world [Scenario.skills] (Some "I work with Go."))
                    {| Route.json :=
                        JS.Throw (JS.ErrorObject "Unexpected end of JSON input") |})
             (JS.ErrorObject "Unexpected end of JSON input")).
    reflexivity.
  - apply (proj2 (RouteFacts.POST_status
                    (Scenario.world [Scenario.skills] (Some "I work with Go."))
                    {| Route.json :=
                        JS.Ok (Scenario.call (JS.JNumber 2%float) "no_such_tool"
                                 (JS.JObject [])) |})
             (Scenario.call (JS.JNumber 2%float) "no_such_tool" (JS.JObject []))).
    + reflexivity.
    + discriminate.
    + discriminate.
Defined.

(** The body [null] is JSON text, and it decodes; the destructuring in
    [handleMCPRequest] then throws, [POST] catches that, and the client gets
    status 400 with the parse error. *)
Lemma POST_null_body :
  JS.is_json JS.JNull = true
  /\ Route.POST {| Route.json := JS.Ok JS.JNull |}
       (Scenario.world [Scenario.skills] (Some "I work with Go."))
     = ([], JS.Ok {| Route.status := 400;
                     Route.body :=
                       {| Route.jsonrpc := "2.0";
                          Route.id := JS.JNull;
                          Route.result := None;
                          Route.error :=
                            Some {| Route.code := -32700;
                                    Route.message := "Parse error" |} |} |})
  /\ (400 <> 200)%Z.
Proof.
  repeat split. discriminate.
Qed.

(** A number too large for a double decodes to an infinity; the request is
    handled like any other. *)
Example POST_infinite_id_example :
  JS.is_json
    (JS.JObject [("id", JS.JNumber PrimFloat.infinity);
                 ("method", JS.JString "ping")]) = true
  /\ Route.POST
       {| Route.json :=
           JS.Ok (JS.JObject [("id", JS.JNumber PrimFloat.infinity);
                              ("method", JS.JString "ping")]) |}
       Scenario.unconfigured
     = ([], JS.Ok {| Route.status := 200;
                     Route.body :=
                       Route.failure (JS.JNumber PrimFloat.infinity) (-32601)
                         "Method not found: ping" |}).
Proof. split; reflexivity. Qed.

(** Any other JSON value is dispatched, whatever its shape. *)
Example POST_number_body_example :
  Route.POST {| Route.json := JS.Ok (JS.JNumber 5%float) |} Scenario.unconfigured
  = ([], JS.Ok {| Route.status := 200;
                  Route.body :=
                    Route.failure JS.JUndefined (-32601)
                      "Method not found: undefined" |}).
Proof. reflexivity. Qed.

(** The [version] of the liveness payload is the version of the server; the
    protocol version that [initialize] declares is another string, and so is
    the version of the JSON-RPC envelope. *)
Lemma GET_version_is_not_the_protocol_version :
  snd (Route.GET Scenario.unconfigured)
  = JS.Ok {| Route.status := 200;
             Route.body :=
               {| Route.health_status := "ok";
                  Route.server := "digital-twin-mcp";
                  Route.version := "1.0.0";
                  Route.tools := ["ask_digital_twin"; "get_profile_info"] |} |}
  /\ JS.prop Route.initialize_result "protocolVersion" = JS.JString "2024-11-05"
  /\ JS.JString "1.0.0" <> JS.prop Route.initialize_result "protocolVersion"
  /\ "1.0.0" <> Route.jsonrpc Route.PARSE_ERROR.
Proof.
  repeat split; discriminate.
Qed.

(** * Further properties of the code *)

(** ** The vector module *)

Module VectorMore.
Import JS Eff Spec Observe EffFacts VectorFacts.

(** X1.  When the index rejects the query, [queryVectors] has made that one
    call, logs the error, and throws an [Error] whose message is
    ["Failed to query vectors: "] followed by the message of the cause (or
    ["Unknown error"] when the cause is no [Error]); [getRelevantContext]
    lets it through unchanged. *)
Theorem queryVectors_failure_wrapped
        (w : World) (q : JSValue) (k : Z) (e : Thrown) :
  vector_configured w ->
  index_query w q k = Throw e ->
  Vector.queryVectors q k w
  = ([EvIndexQuery q k; EvConsoleError "Error querying vectors:" e],
     Throw (ErrorObject
              ("Failed to query vectors: " ++ message_or "Unknown error" e)))
  /\ Vector.getRelevantContext q k w
     = ([EvIndexQuery q k; EvConsoleError "Error querying vectors:" e],
        Throw (ErrorObject
                 ("Failed to query vectors: " ++ message_or "Unknown error" e))).
Proof.
  intros Hw Hq.
  pose proof (queryVectors_rejected q k Hw Hq) as H.
  split; [exact H|].
  rewrite getRelevantContext_run. now rewrite H.
Qed.

(** X2.  Without both credentials, none of the three exported functions
    calls the vector client: the run of each consists of the one
    [console.error] of its catch block, which logs the configuration error,
    and ends in an [Error] that names the missing configuration. *)
Theorem vector_unconfigured_no_call (w : World) (q : JSValue) (k : Z) :
  ~ vector_configured w ->
  Vector.queryVectors q k w
  = ([EvConsoleError "Error querying vectors:"
        (ErrorObject "Upstash Vector credentials not configured")],
     Throw (ErrorObject
              "Failed to query vectors: Upstash Vector credentials not configured"))
  /\ Vector.getRelevantContext q k w
     = ([EvConsoleError "Error querying vectors:"
           (ErrorObject "Upstash Vector credentials not configured")],
        Throw (ErrorObject
                 "Failed to query vectors: Upstash Vector credentials not configured"))
  /\ Vector.getVectorInfo w
     = ([EvConsoleError "Error getting vector info:"
           (ErrorObject "Upstash Vector credentials not configured")],
        Throw (ErrorObject
                 "Failed to get vector info: Upstash Vector credentials not configured")).
Proof.
  intros Hw.
  pose proof (queryVectors_unconfigured q k Hw) as H.
  split; [exact H|]. split.
  - rewrite getRelevantContext_run. now rewrite H.
  - unfold Vector.getVectorInfo. rewrite try_rethrow_run.
    unfold bind. now rewrite (getVectorIndex_unconfigured Hw).
Qed.

Lemma or_else_nonempty (a : option string) (d : string) :
  d <> "" -> or_else a d <> "".
Proof.
  intros Hd. unfold or_else.
  destruct a as [s|]; [|assumption].
  destruct (string_truthy s) eqn:E; [|assumption].
  now apply string_truthy_true.
Qed.

Lemma kept_content (r : Vector.QueryResult) :
  Vector.keep r = true -> Vector.content (Vector.to_source r) <> "".
Proof.
  unfold Vector.keep, Vector.to_source. simpl.
  destruct (Vector.metadata_content r) as [s|]; simpl; [|discriminate].
  intros H. rewrite H. now apply string_truthy_true.
Qed.

(** X3.  Whatever the service answers, the fragments that
    [getRelevantContext] returns all have a non-empty content and a
    non-empty title. *)
Theorem getRelevantContext_sources_filled
        (w : World) (q : JSValue) (k : Z) (t : Trace) (kept : list Vector.Source) :
  Vector.getRelevantContext q k w = (t, Ok kept) ->
  Forall (fun s => Vector.content s <> "" /\ Vector.title s <> "") kept.
Proof.
  rewrite getRelevantContext_run.
  destruct (Vector.queryVectors q k w) as [t' [results | e]]; [|discriminate].
  intros H. inversion H; subst. clear H.
  apply Forall_forall. intros s Hs.
  apply in_map_iff in Hs as [r [<- Hr]].
  apply filter_In in Hr as [_ Hk].
  split.
  - now apply kept_content.
  - unfold Vector.to_source. simpl. now apply or_else_nonempty.
Qed.

Lemma Retained_scores (found : list IndexMatch) (kept : list Vector.Source) :
  Retained found kept ->
  forall s, In s kept -> exists m, In m found /\ match_score m = Vector.score s.
Proof.
  intros HR s Hs.
  destruct (Retained_sound HR s Hs) as [m [md [Hin [_ [_ [_ Hsc]]]]]].
  exists m. now split.
Qed.

Lemma Retained_sorted (R : float -> float -> Prop)
      (found : list IndexMatch) (kept : list Vector.Source) :
  Retained found kept ->
  StronglySorted (fun a b => R (match_score a) (match_score b)) found ->
  StronglySorted (fun a b => R (Vector.score a) (Vector.score b)) kept.
Proof.
  induction 1 as [| m md found kept Hmd Hc HR IH
                  | m md found kept Hmd Hc HR IH
                  | m found kept Hmd HR IH];
    intros Hs.
  - constructor.
  - inversion Hs as [|? ? Hrest Hall]; subst.
    constructor; [now apply IH|].
    apply Forall_forall. intros s Hin.
    destruct (Retained_scores HR s Hin) as [m' [Hin' Hsc]].
    rewrite Forall_forall in Hall. specialize (Hall m' Hin').
    simpl. now rewrite <- Hsc.
  - inversion Hs; subst. now apply IH.
  - inversion Hs; subst. now apply IH.
Qed.

(** X4.  The filter never reorders and never adds: the result is no longer
    than the answer of the service, and if the service's matches are sorted
    by score under any relation (descending relevance, say), so are the
    returned fragments. *)
Theorem getRelevantContext_keeps_order
        (R : float -> float -> Prop)
        (w : World) (q : JSValue) (k : Z) (found : list IndexMatch)
        (t : Trace) (kept : list Vector.Source) :
  vector_configured w ->
  index_query w q k = Ok found ->
  Vector.getRelevantContext q k w = (t, Ok kept) ->
  (List.length kept <= List.length found)%nat
  /\ (StronglySorted (fun a b => R (match_score a) (match_score b)) found ->
      StronglySorted (fun a b => R (Vector.score a) (Vector.score b)) kept).
Proof.
  intros Hw Hq H.
  rewrite getRelevantContext_run, (queryVectors_ok q k Hw Hq) in H.
  inversion H; subst. clear H.
  split.
  - rewrite length_map.
    etransitivity; [apply filter_length_le|]. now rewrite length_map.
  - apply Retained_sorted. apply filter_map_retained.
Qed.

Lemma getVectorInfo_ok_run (w : World) (info : IndexInfo) :
  vector_configured w ->
  index_info w = Ok info ->
  Vector.getVectorInfo w
  = ([EvIndexInfo],
     Ok {| Vector.vectorCount := or_zero (info_vectorCount info);
           Vector.dimension := or_zero (info_dimension info) |}).
Proof.
  intros Hw Hi.
  unfold Vector.getVectorInfo. rewrite try_rethrow_run.
  unfold bind at 1. rewrite (getVectorIndex_configured Hw).
  unfold Vector.Index_info, bind, ask, emit, lift, ret. simpl.
  now rewrite Hi.
Qed.

Lemma getVectorInfo_rejected_run (w : World) (e : Thrown) :
  vector_configured w ->
  index_info w = Throw e ->
  Vector.getVectorInfo w
  = ([EvIndexInfo; EvConsoleError "Error getting vector info:" e],
     Throw (ErrorObject
              ("Failed to get vector info: " ++ message_or "Unknown error" e))).
Proof.
  intros Hw Hi.
  unfold Vector.getVectorInfo. rewrite try_rethrow_run.
  unfold bind at 1. rewrite (getVectorIndex_configured Hw).
  unfold Vector.Index_info, bind, ask, emit, lift, ret. simpl.
  now rewrite Hi.
Qed.

Lemma getVectorInfo_unconfigured_run (w : World) :
  ~ vector_configured w ->
  Vector.getVectorInfo w
  = ([EvConsoleError "Error getting vector info:"
        (ErrorObject "Upstash Vector credentials not configured")],
     Throw (ErrorObject
              "Failed to get vector info: Upstash Vector credentials not configured")).
Proof.
  intros Hw.
  unfold Vector.getVectorInfo. rewrite try_rethrow_run.
  unfold bind. now rewrite (getVectorIndex_unconfigured Hw).
Qed.

Lemma getVectorInfo_call_cases (w : World) :
  client_calls (fst (Vector.getVectorInfo w)) = []
  \/ client_calls (fst (Vector.getVectorInfo w)) = [EvIndexInfo].
Proof.
  destruct (vector_configured_dec w) as [Hw | Hw].
  - destruct (index_info w) as [info | e] eqn:Hi.
    + rewrite (getVectorInfo_ok_run Hw Hi). now right.
    + rewrite (getVectorInfo_rejected_run Hw Hi). now right.
  - rewrite (getVectorInfo_unconfigured_run Hw). now left.
Qed.

Lemma or_zero_not_nan (n : float) : is_nan (or_zero n) = false.
Proof.
  unfold or_zero.
  destruct (number_truthy n) eqn:E; [|reflexivity].
  unfold number_truthy in E. apply andb_prop in E as [_ E].
  now apply negb_true_iff in E.
Qed.

(** X5.  With the credentials set and the status query answered,
    [getVectorInfo] makes that one call and returns the two counts, a falsy
    one replaced by zero: it never returns [NaN]. *)
Theorem getVectorInfo_counts (w : World) (info : IndexInfo) :
  vector_configured w ->
  index_info w = Ok info ->
  exists r,
    Vector.getVectorInfo w = ([EvIndexInfo], Ok r)
    /\ Vector.vectorCount r
       = (if number_truthy (info_vectorCount info)
          then info_vectorCount info else 0%float)
    /\ Vector.dimension r
       = (if number_truthy (info_dimension info)
          then info_dimension info else 0%float)
    /\ is_nan (Vector.vectorCount r) = false
    /\ is_nan (Vector.dimension r) = false.
Proof.
  intros Hw Hi.
  eexists. split.
  - unfold Vector.getVectorInfo. rewrite try_rethrow_run.
    unfold bind at 1. rewrite (getVectorIndex_configured Hw).
    unfold Vector.Index_info, bind, ask, emit, lift, ret. simpl.
    rewrite Hi. reflexivity.
  - simpl. repeat split; apply or_zero_not_nan.
Qed.

End VectorMore.

(** ** The actions module *)

Module ActionsMore.
Import JS Eff Spec Observe EffFacts VectorFacts GeneratorFacts OrchestratorFacts.

Lemma groq_configured_dec (w : World) :
  groq_configured w \/ ~ groq_configured w.
Proof.
  unfold groq_configured.
  destruct (env_missing (GROQ_API_KEY w)); [right; discriminate | now left].
Qed.

Lemma generateResponse_no_key (w : World) (prompt model : string) :
  ~ groq_configured w ->
  Actions.generateResponse prompt model w
  = ([EvConsoleError "Error generating response:"
        (ErrorObject "GROQ_API_KEY not configured")],
     Throw (ErrorObject "Failed to generate response: GROQ_API_KEY not configured")).
Proof.
  intros Hk.
  unfold Actions.generateResponse. rewrite try_rethrow_run.
  unfold bind. now rewrite (getGroqClient_unconfigured Hk).
Qed.

Lemma generateResponse_rejected (w : World) (prompt model : string) (e : Thrown) :
  groq_configured w ->
  chat_completions_create w (Actions.completion_request prompt model) = Throw e ->
  Actions.generateResponse prompt model w
  = ([EvChatCompletion (Actions.completion_request prompt model);
      EvConsoleError "Error generating response:" e],
     Throw (ErrorObject
              ("Failed to generate response: " ++ message_or "Unknown error" e))).
Proof.
  intros Hk Hc.
  unfold Actions.generateResponse. rewrite try_rethrow_run.
  unfold bind. rewrite (getGroqClient_configured Hk).
  unfold Actions.Groq_create, bind, ask, emit, lift, ret. simpl.
  now rewrite Hc.
Qed.

(** The three ways [generateResponse] can end. *)
Lemma generateResponse_cases (w : World) (prompt model : string) :
  (exists c,
      Actions.generateResponse prompt model w
      = ([EvChatCompletion (Actions.completion_request prompt model)],
         Ok (Actions.completion_text c)))
  \/ (exists e m,
         Actions.generateResponse prompt model w
         = ([EvChatCompletion (Actions.completion_request prompt model);
             EvConsoleError "Error generating response:" e],
            Throw (ErrorObject m)))
  \/ (exists e m,
         Actions.generateResponse prompt model w
         = ([EvConsoleError "Error generating response:" e],
            Throw (ErrorObject m))).
Proof.
  destruct (groq_configured_dec w) as [Hk | Hk].
  - destruct (chat_completions_create w (Actions.completion_request prompt model))
      as [c | e] eqn:Hc.
    + left. exists c. now apply generateResponse_ok.
    + right. left. do 2 eexists. eapply generateResponse_rejected; eassumption.
  - right. right. do 2 eexists. eapply generateResponse_no_key; eassumption.
Qed.

(** X6.  Without an API key [generateResponse] does not call the chat
    client: its run consists of the one [console.error] of its catch block,
    which logs the configuration error, and ends in an [Error] that names
    the missing key. *)
Theorem generateResponse_unconfigured (w : World) (prompt model : string) :
  ~ groq_configured w ->
  Actions.generateResponse prompt model w
  = ([EvConsoleError "Error generating response:"
        (ErrorObject "GROQ_API_KEY not configured")],
     Throw (ErrorObject
              "Failed to generate response: GROQ_API_KEY not configured")).
Proof.
  intros Hk.
  unfold Actions.generateResponse. rewrite try_rethrow_run.
  unfold bind. now rewrite (getGroqClient_unconfigured Hk).
Qed.

(** X7.  When the chat service rejects the request, [generateResponse] has
    made that one call, logs the error, and throws an [Error] whose message
    is ["Failed to generate response: "] followed by the message of the
    cause (or ["Unknown error"] when the cause is no [Error]). *)
Theorem generateResponse_failure_wrapped
        (w : World) (prompt model : string) (e : Thrown) :
  groq_configured w ->
  chat_completions_create w (Actions.completion_request prompt model) = Throw e ->
  Actions.generateResponse prompt model w
  = ([EvChatCompletion (Actions.completion_request prompt model);
      EvConsoleError "Error generating response:" e],
     Throw (ErrorObject
              ("Failed to generate response: " ++ message_or "Unknown error" e))).
Proof.
  intros Hk Hc. now apply generateResponse_rejected.
Qed.

Lemma completion_text_clean (c : ChatCompletion) : clean (Actions.completion_text c).
Proof.
  assert (S : clean Actions.NO_RESPONSE).
  { unfold clean. split; [discriminate|]. split; intros ch H; inversion H; reflexivity. }
  unfold Actions.completion_text.
  destruct (Actions.first_content c) as [s|]; simpl option_map; [|exact S].
  rewrite or_else_trim.
  destruct (trim s) as [|ch rest] eqn:E; [exact S|].
  rewrite <- E.
  destruct (TrimFacts.trim_trimmed s) as [_ [Hf Hl]].
  unfold clean. split; [rewrite E; discriminate | now split].
Qed.

(** X8.  Whenever [generateResponse] returns, the text is not empty and has
    no whitespace at either end. *)
Theorem generateResponse_answer_clean
        (w : World) (prompt model : string) (t : Trace) (text : string) :
  Actions.generateResponse prompt model w = (t, Ok text) ->
  text <> ""
  /\ (forall c, first_char text = Some c -> isWhiteSpace c = false)
  /\ (forall c, last_char text = Some c -> isWhiteSpace c = false).
Proof.
  intros H.
  destruct (generateResponse_cases w prompt model)
    as [[c Hc] | [[e [m Hc]] | [e [m Hc]]]];
    rewrite Hc in H; inversion H; subst.
  apply completion_text_clean.
Qed.

(** X9.  [generateResponse] has no retry loop of its own: in one run it
    calls [chat.completions.create] at most once and no method of the vector
    client.  The argument of that call is fixed by the prompt and the model:
    the persona as system message, the prompt as the only user message,
    temperature 0.7 and at most 500 tokens.  (The requests the client sends
    for the call, its own retries included, are not counted.) *)
Theorem generateResponse_single_call (w : World) (prompt model : string) :
  client_calls (fst (Actions.generateResponse prompt model w)) = []
  \/ client_calls (fst (Actions.generateResponse prompt model w))
     = [EvChatCompletion
          {| Eff.model := model;
             messages :=
               [ {| role := "system";
                    msg_content :=
                      "You are an AI digital twin. Answer questions as if you are the person, speaking in first person about your background, skills, and experience." |};
                 {| role := "user"; msg_content := prompt |} ];
             temperature := 0.7%float;
             max_tokens := 500 |}].
Proof.
  destruct (generateResponse_cases w prompt model)
    as [[c Hc] | [[e [m Hc]] | [e [m Hc]]]];
    rewrite Hc; [right | right | left]; reflexivity.
Qed.

End ActionsMore.

Module OrchestratorMore.
Import JS Eff Spec Observe EffFacts VectorFacts GeneratorFacts OrchestratorFacts.
Import ActionsMore.

Lemma client_calls_app (a b : Trace) :
  client_calls (a ++ b)%list = (client_calls a ++ client_calls b)%list.
Proof. apply filter_app. Qed.

(** The ways retrieval can end, with the client calls it made. *)
Lemma getRelevantContext_cases (w : World) (q : JSValue) (k : Z) :
  (exists kept,
      Vector.getRelevantContext q k w = ([EvIndexQuery q k], Ok kept))
  \/ (exists t m,
         Vector.getRelevantContext q k w = (t, Throw (ErrorObject m))
         /\ (client_calls t = [] \/ client_calls t = [EvIndexQuery q k])).
Proof.
  rewrite getRelevantContext_run.
  destruct (vector_configured_dec w) as [Hw | Hw].
  - destruct (index_query w q k) as [found | e] eqn:Hq.
    + left. rewrite (queryVectors_ok q k Hw Hq). eexists. reflexivity.
    + right. rewrite (queryVectors_rejected q k Hw Hq).
      do 2 eexists. split; [reflexivity | right; reflexivity].
  - right. rewrite (queryVectors_unconfigured q k Hw).
    do 2 eexists. split; [reflexivity | left; reflexivity].
Qed.

Lemma ragQuery_retrieval_throw (w : World) (question : JSValue)
      (t : Trace) (e : Thrown) :
  Vector.getRelevantContext question 3 w = (t, Throw e) ->
  Actions.ragQuery question w
  = ((t ++ [EvConsoleError "Error in RAG query:" e])%list,
     Throw (ErrorObject ("RAG query failed: " ++ message_or "Unknown error" e))).
Proof.
  intros H.
  unfold Actions.ragQuery. rewrite try_rethrow_run.
  unfold bind. now rewrite H.
Qed.

Lemma ragQuery_question_throw (w : World) (question : JSValue)
      (t : Trace) (sources : list Vector.Source) (e : Thrown) :
  Vector.getRelevantContext question 3 w = (t, Ok sources) ->
  sources <> [] ->
  ToString (Number_toString w) question = Throw e ->
  Actions.ragQuery question w
  = ((t ++ [EvConsoleError "Error in RAG query:" e])%list,
     Throw (ErrorObject ("RAG query failed: " ++ message_or "Unknown error" e))).
Proof.
  intros H Hne Hq.
  unfold Actions.ragQuery. rewrite try_rethrow_run.
  unfold bind at 1. rewrite H.
  destruct sources as [|s rest]; [congruence|].
  cbn [List.length Nat.eqb].
  unfold bind at 1, to_string, bind at 1, ask, lift. rewrite Hq.
  cbn [app]. now rewrite app_nil_r.
Qed.

Lemma ragQuery_call_cases (w : World) (question : JSValue) :
  client_calls (fst (Actions.ragQuery question w)) = []
  \/ client_calls (fst (Actions.ragQuery question w)) = [EvIndexQuery question 3]
  \/ exists req,
      client_calls (fst (Actions.ragQuery question w))
      = [EvIndexQuery question 3; EvChatCompletion req].
Proof.
  destruct (getRelevantContext_cases w question 3)
    as [[kept H] | [t [m [H Hn]]]].
  - destruct kept as [|s rest].
    + rewrite (ragQuery_empty w question H). right. left. reflexivity.
    + destruct (ToString (Number_toString w) question) as [q | e] eqn:Hq.
      * rewrite (ragQuery_grounded w question H ltac:(discriminate) Hq).
        destruct (generateResponse_cases w
                    (Actions.build_prompt (Actions.build_context (s :: rest)) q)
                    Actions.DEFAULT_MODEL)
          as [[c Hc] | [[e [m Hc]] | [e [m Hc]]]];
          rewrite Hc; cbn [fst];
          try (right; right; eexists; reflexivity);
          right; left; reflexivity.
      * rewrite (ragQuery_question_throw w question H ltac:(discriminate) Hq).
        right. left. reflexivity.
  - rewrite (ragQuery_retrieval_throw w question H). cbn [fst].
    rewrite client_calls_app. cbn [client_calls filter is_client_call]. rewrite app_nil_r.
    destruct Hn as [Hn | Hn]; [left | right; left]; exact Hn.
Qed.

(** X10.  One run of [ragQuery] calls the service clients at most twice, in
    this order: [index.query] for the question with [topK = 3], then at
    most one [chat.completions.create]; it never calls [index.info].  (The
    requests a client sends for one call, its own retries included, are not
    counted.) *)
Theorem ragQuery_call_shape (w : World) (question : JSValue) :
  client_calls (fst (Actions.ragQuery question w)) = []
  \/ client_calls (fst (Actions.ragQuery question w)) = [EvIndexQuery question 3]
  \/ exists req,
      client_calls (fst (Actions.ragQuery question w))
      = [EvIndexQuery question 3; EvChatCompletion req].
Proof.
  apply ragQuery_call_cases.
Qed.

(** X11.  When the vector index rejects the query, [ragQuery] throws an
    [Error] whose message chains the two layers, ["RAG query failed: Failed
    to query vectors: "] and the message of the cause; the chat service is
    not called and no answer is returned. *)
Theorem ragQuery_retrieval_failure
        (w : World) (question : JSValue) (e : Thrown) :
  vector_configured w ->
  index_query w question 3 = Throw e ->
  Actions.ragQuery question w
  = ([ EvIndexQuery question 3;
       EvConsoleError "Error querying vectors:" e;
       EvConsoleError "Error in RAG query:"
         (ErrorObject
            ("Failed to query vectors: " ++ message_or "Unknown error" e)) ],
     Throw (ErrorObject
              ("RAG query failed: Failed to query vectors: "
               ++ message_or "Unknown error" e))).
Proof.
  intros Hw Hq.
  assert (H : Vector.getRelevantContext question 3 w
              = ([EvIndexQuery question 3;
                  EvConsoleError "Error querying vectors:" e],
                 Throw (ErrorObject
                          ("Failed to query vectors: "
                           ++ message_or "Unknown error" e))))
    by (rewrite getRelevantContext_run;
        now rewrite (queryVectors_rejected question 3 Hw Hq)).
  rewrite (ragQuery_retrieval_throw w question H). reflexivity.
Qed.

(** X12.  Whenever [ragQuery] returns, its sources are the fragments that
    retrieval returned, unchanged, and its answer is not empty: the fixed
    sentence when there are no sources, a clean generated text otherwise. *)
Theorem ragQuery_result_invariant
        (w : World) (question : JSValue) (t : Trace) (r : Actions.RAGResponse) :
  Actions.ragQuery question w = (t, Ok r) ->
  (exists t1,
      Vector.getRelevantContext question 3 w = (t1, Ok (Actions.sources r)))
  /\ Actions.answer r <> ""
  /\ (Actions.sources r = [] ->
      Actions.answer r = "I don't have specific information about that topic.")
  /\ (Actions.sources r <> [] -> clean (Actions.answer r)).
Proof.
  intros H.
  destruct (Vector.getRelevantContext question 3 w) as [t1 [kept | e]] eqn:Hg.
  - destruct kept as [|s rest].
    + rewrite (ragQuery_empty w question Hg) in H. inversion H; subst. simpl.
      split; [eexists; reflexivity|]. repeat split; try discriminate; congruence.
    + destruct (ToString (Number_toString w) question) as [q | e] eqn:Hq.
      * rewrite (ragQuery_grounded w question Hg ltac:(discriminate) Hq) in H.
        destruct (generateResponse_cases w
                    (Actions.build_prompt (Actions.build_context (s :: rest)) q)
                    Actions.DEFAULT_MODEL)
          as [[c Hc] | [[e [m Hc]] | [e [m Hc]]]];
          rewrite Hc in H; inversion H; subst. simpl.
        pose proof (completion_text_clean c) as [Hne Hcl].
        split; [eexists; reflexivity|]. split; [exact Hne|].
        split; [discriminate|]. intros _. now split.
      * rewrite (ragQuery_question_throw w question Hg ltac:(discriminate) Hq)
          in H. discriminate.
  - rewrite (ragQuery_retrieval_throw w question Hg) in H. discriminate.
Qed.

(** X13.  When retrieval found fragments and the call of the chat client
    is rejected, [ragQuery] throws an [Error] whose message chains the two
    layers, ["RAG query failed: Failed to generate response: "] and the
    message of the cause; the fragments are not returned.  The client calls
    of the run are the one [index.query] and the one
    [chat.completions.create], with the prompt built from the fragments. *)
Theorem ragQuery_generation_failure
        (w : World) (question : string) (found : list IndexMatch)
        (kept : list Vector.Source) (e : Thrown) :
  vector_configured w ->
  groq_configured w ->
  index_query w (JString question) 3 = Ok found ->
  Retained found kept ->
  kept <> [] ->
  chat_completions_create w
    (Actions.completion_request
       (Actions.build_prompt (context_block kept) question)
       Actions.DEFAULT_MODEL)
  = Throw e ->
  exists t,
    Actions.ragQuery (JString question) w
    = (t, Throw (ErrorObject
                   ("RAG query failed: Failed to generate response: "
                    ++ message_or "Unknown error" e)))
    /\ client_calls t
       = [ EvIndexQuery (JString question) 3;
           EvChatCompletion
             (Actions.completion_request
                (Actions.build_prompt (context_block kept) question)
                Actions.DEFAULT_MODEL) ].
Proof.
  intros Hw Hk Hq HR Hne Hc.
  pose proof (getRelevantContext_run w (JString question) 3) as Hg.
  rewrite (queryVectors_ok (JString question) 3 Hw Hq) in Hg.
  rewrite (Retained_functional
             (filter_map_retained (Number_toString w) found) HR) in Hg.
  eexists. split.
  - rewrite (@ragQuery_grounded w (JString question) question _ kept Hg Hne eq_refl).
    rewrite build_context_block.
    rewrite (generateResponse_rejected _ _ Hk Hc). reflexivity.
  - reflexivity.
Qed.

(** X14.  A question that cannot be converted to a string (an object with a
    [toString] member of its own) makes [ragQuery] fail once retrieval has
    found fragments: it throws ["RAG query failed: Cannot convert object to
    primitive value"] and the chat service is not called. *)
Theorem ragQuery_unshowable_question
        (w : World) (question : JSValue) (t : Trace)
        (sources : list Vector.Source) (e : Thrown) :
  Vector.getRelevantContext question 3 w = (t, Ok sources) ->
  sources <> [] ->
  ToString (Number_toString w) question = Throw e ->
  Actions.ragQuery question w
  = ((t ++ [EvConsoleError "Error in RAG query:"
              (ErrorObject "Cannot convert object to primitive value")])%list,
     Throw (ErrorObject
              "RAG query failed: Cannot convert object to primitive value"))
  /\ generations (fst (Actions.ragQuery question w)) = 0%nat.
Proof.
  intros H Hne Hq.
  pose proof (ToStringFacts.ToString_throws _ _ Hq) as ->.
  rewrite (ragQuery_question_throw w question H Hne Hq).
  split; [reflexivity|].
  cbn [fst]. unfold generations. rewrite filter_app. cbn [filter is_generation].
  rewrite app_nil_r.
  pose proof (getRelevantContext_no_generation w question 3) as G.
  rewrite H in G. cbn [fst] in G.
  clear -G. induction t as [|ev t IH]; [reflexivity|].
  cbn [forallb] in G. apply andb_prop in G as [G1 G2].
  cbn [filter]. apply negb_true_iff in G1. rewrite G1. now apply IH.
Qed.

End OrchestratorMore.

(** ** The route module *)

Module RouteMore.
Import JS Eff Spec Observe EffFacts VectorFacts GeneratorFacts OrchestratorFacts.
Import ActionsMore OrchestratorMore RouteFacts.

Lemma method_not_nullish (request : JSValue) (m : string) :
  prop request "method" = JString m -> nullish request = false.
Proof.
  destruct request; try reflexivity; discriminate.
Qed.

(** What a successful [tools/call] can answer, by tool name. *)
Lemma tools_call_ok_cases (w : World) (i params : JSValue) (t : Trace)
      (resp : Route.MCPResponse) :
  Route.tools_call i params w = (t, Ok resp) ->
  (exists r, resp = Route.success i r)
  \/ (resp = Route.failure i (-32602) "Missing required parameter: question"
      /\ t = [])
  \/ (exists shown,
         resp = Route.failure i (-32601) ("Unknown tool: " ++ shown)
         /\ t = []
         /\ strict_eq_string (opt_prop params "name") "ask_digital_twin" = false
         /\ strict_eq_string (opt_prop params "name") "get_profile_info" = false).
Proof.
  unfold Route.tools_call.
  destruct (strict_eq_string (opt_prop params "name") "ask_digital_twin") eqn:Ha.
  - destruct (truthy _); cbn [negb].
    + intros H. apply bind_ok_inv in H as [t1 [a [t2 [_ [H _]]]]].
      unfold Eff.ret in H. inversion H; subst. left. eexists. reflexivity.
    + intros H. unfold Eff.ret in H. inversion H; subst. right. left. now split.
  - destruct (strict_eq_string (opt_prop params "name") "get_profile_info") eqn:Hp.
    + intros H. apply bind_ok_inv in H as [t1 [a [t2 [_ [H _]]]]].
      apply bind_ok_inv in H as [t3 [w' [t4 [_ [H _]]]]].
      unfold Eff.ret in H. inversion H; subst. left. eexists. reflexivity.
    + intros H. apply bind_ok_inv in H as [t1 [shown [t2 [H1 [H Ht]]]]].
      rewrite to_string_run in H1. inversion H1; subst.
      unfold Eff.ret in H. inversion H; subst.
      right. right. exists shown. repeat split.
Qed.

Lemma dispatch_ok_codes (w : World) (i method params : JSValue) (t : Trace)
      (resp : Route.MCPResponse) :
  Route.dispatch i method params w = (t, Ok resp) ->
  error_code resp = None
  \/ error_code resp = Some (-32601)%Z
  \/ error_code resp = Some (-32602)%Z.
Proof.
  unfold Route.dispatch.
  destruct (strict_eq_string method "initialize").
  { intros H. unfold Eff.ret in H. inversion H; subst. now left. }
  destruct (strict_eq_string method "tools/list").
  { intros H. unfold Eff.ret in H. inversion H; subst. now left. }
  destruct (strict_eq_string method "tools/call").
  { intros H. apply tools_call_ok_cases in H
      as [[r ->] | [[-> _] | [shown [-> _]]]]; cbn; auto. }
  intros H. apply bind_ok_inv in H as [t1 [a [t2 [_ [H _]]]]].
  unfold Eff.ret in H. inversion H; subst. right. now left.
Qed.

Lemma dispatch_static (w : World) (i method params : JSValue) :
  strict_eq_string method "tools/call" = false ->
  fst (Route.dispatch i method params w) = [].
Proof.
  intros Hc. unfold Route.dispatch. rewrite Hc.
  destruct (strict_eq_string method "initialize"); [reflexivity|].
  destruct (strict_eq_string method "tools/list"); [reflexivity|].
  unfold Eff.bind. rewrite to_string_run.
  destruct (ToString (Number_toString w) method); reflexivity.
Qed.

(** X15.  [initialize] and [tools/list] are static: the answer has no
    effect, and depends on nothing but the method and the [id] -- not on the
    params, not on the other members of the request, not on the
    configuration or the state of the services. *)
Theorem static_methods_pure
        (w w' : World) (request request' : JSValue) (m : string) :
  m = "initialize" \/ m = "tools/list" ->
  prop request "method" = JString m ->
  prop request' "method" = JString m ->
  prop request' "id" = prop request "id" ->
  fst (Route.handleMCPRequest request w) = []
  /\ Route.handleMCPRequest request' w' = Route.handleMCPRequest request w
  /\ exists r,
      snd (Route.handleMCPRequest request w)
      = Ok {| Route.jsonrpc := "2.0"; Route.id := prop request "id";
              Route.result := Some r; Route.error := None |}.
Proof.
  intros Hm H1 H2 Hid.
  rewrite (handleMCPRequest_run w request (method_not_nullish request H1)).
  rewrite (handleMCPRequest_run w' request' (method_not_nullish request' H2)).
  rewrite H1, H2, Hid. unfold Route.dispatch.
  destruct Hm as [-> | ->]; cbn; (split; [reflexivity|]);
    (split; [reflexivity|]); eexists; reflexivity.
Qed.

(** X16.  [tools/list] answers with one descriptor per tool of [TOOLS], each
    with a name, a description and an input schema; the names are the ones
    the liveness probe reports, in the same order. *)
Theorem tools_list_matches_probe (w : World) (request : JSValue) :
  prop request "method" = JString "tools/list" ->
  exists listed health,
    Route.handleMCPRequest request w
    = ([], Ok (Route.success (prop request "id")
                 (JObject [("tools", JArray listed)])))
    /\ Route.GET w = ([], Ok health)
    /\ map (fun d => prop d "name") listed
       = map JString (Route.tools (Route.body health))
    /\ Forall (fun d => exists n ds sc,
                   d = JObject [("name", JString n);
                                ("description", JString ds);
                                ("inputSchema", JObject sc)])
              listed.
Proof.
  intros Hm.
  rewrite (handleMCPRequest_run w request (method_not_nullish request Hm)).
  rewrite Hm.
  do 2 eexists. split; [reflexivity|]. split; [reflexivity|].
  split; [reflexivity|].
  repeat constructor; do 3 eexists; reflexivity.
Qed.

(** X17.  A method that is a string other than the three known ones is
    answered with code [-32601] and a message naming it, with the request's
    [id], and has no effect. *)
Theorem unknown_method (w : World) (request : JSValue) (m : string) :
  prop request "method" = JString m ->
  m <> "initialize" -> m <> "tools/list" -> m <> "tools/call" ->
  Route.handleMCPRequest request w
  = ([], Ok {| Route.jsonrpc := "2.0"; Route.id := prop request "id";
               Route.result := None;
               Route.error :=
                 Some {| Route.code := -32601;
                         Route.message := "Method not found: " ++ m |} |}).
Proof.
  intros Hm H1 H2 H3.
  rewrite (handleMCPRequest_run w request (method_not_nullish request Hm)).
  rewrite Hm. unfold Route.dispatch. cbn [strict_eq_string].
  apply String.eqb_neq in H1, H2, H3. rewrite H1, H2, H3.
  reflexivity.
Qed.

(** X18.  For a [tools/call] whose tool name is a string: a name that is not
    in [TOOLS] is answered with code [-32601] and a message naming it, with
    no effect; a name that is in [TOOLS] is never answered with [-32601]. *)
Theorem unknown_tool_exactly (w : World) (request : JSValue) (tool : string) :
  calls_tool request tool ->
  (~ In tool (map Route.name Route.TOOLS) ->
   Route.handleMCPRequest request w
   = ([], Ok {| Route.jsonrpc := "2.0"; Route.id := prop request "id";
                Route.result := None;
                Route.error :=
                  Some {| Route.code := -32601;
                          Route.message := "Unknown tool: " ++ tool |} |}))
  /\ (In tool (map Route.name Route.TOOLS) ->
      forall t resp,
        Route.handleMCPRequest request w = (t, Ok resp) ->
        error_code resp <> Some (-32601)%Z).
Proof.
  intros [Hm Ht].
  pose proof (handleMCPRequest_run w request (method_not_nullish request Hm)) as R.
  rewrite Hm in R. unfold Route.dispatch in R. cbn [strict_eq_string String.eqb Ascii.eqb Bool.eqb] in R.
  split.
  - intros Hn. rewrite R. unfold Route.tools_call. rewrite Ht.
    cbn [strict_eq_string].
    assert (H1 : (tool =? "ask_digital_twin")%string = false)
      by (apply String.eqb_neq; intros ->; apply Hn; simpl; auto).
    assert (H2 : (tool =? "get_profile_info")%string = false)
      by (apply String.eqb_neq; intros ->; apply Hn; simpl; auto).
    rewrite H1, H2. reflexivity.
  - intros Hin t resp H. rewrite R in H.
    destruct (Route.tools_call (prop request "id") (prop request "params") w)
      as [t' [resp' | e]] eqn:Hc.
    + inversion H; subst.
      apply tools_call_ok_cases in Hc
        as [[r ->] | [[-> _] | [shown [_ [_ [Ha Hp]]]]]];
        try (cbn; discriminate).
      rewrite Ht in Ha, Hp. cbn [strict_eq_string] in Ha, Hp.
      apply String.eqb_neq in Ha, Hp.
      simpl in Hin. destruct Hin as [<- | [<- | []]]; congruence.
    + inversion H; subst. cbn. discriminate.
Qed.

(** X19.  [POST] answers every request with status 400 or 200.  Status 400
    comes only with the parse-error body and no effect; with status 200 the
    body is a JSON-RPC 2.0 response that carries a result or one of the
    error codes [-32601], [-32602], [-32603] -- never [-32700]. *)
Theorem POST_statuses_and_codes
        (w : World) (http : Route.NextRequest) (t : Trace)
        (r : Route.NextResponse Route.MCPResponse) :
  Route.POST http w = (t, Ok r) ->
  (Route.status r = 400%Z /\ Route.body r = Route.PARSE_ERROR /\ t = [])
  \/ (Route.status r = 200%Z
      /\ Route.jsonrpc (Route.body r) = "2.0"
      /\ (error_code (Route.body r) = None
          \/ error_code (Route.body r) = Some (-32601)%Z
          \/ error_code (Route.body r) = Some (-32602)%Z
          \/ error_code (Route.body r) = Some (-32603)%Z)).
Proof.
  unfold Route.POST, Eff.try_catch, Eff.bind, lift, Eff.ret.
  destruct (Route.json http) as [v | e].
  2:{ intros H. inversion H; subst. left. repeat split. }
  destruct (nullish v) eqn:Hn.
  - destruct (handleMCPRequest_nullish w v Hn) as [e He]. rewrite He.
    intros H. inversion H; subst. left. repeat split.
  - rewrite (handleMCPRequest_run w v Hn).
    destruct (Route.dispatch _ _ _ w) as [t' [resp | e]] eqn:Hd;
      intros H; inversion H; subst; right; cbn.
    + split; [reflexivity|].
      pose proof (dispatch_answers _ _ _ _ Hd) as [[x ->] | [c [m ->]]].
      * split; [reflexivity | now left].
      * split; [reflexivity|].
        destruct (dispatch_ok_codes _ _ _ _ Hd) as [H0 | [H0 | H0]]; auto.
    + split; [reflexivity|]. split; [reflexivity|]. auto.
Qed.

End RouteMore.

Module ToolsMore.
Import JS Eff Spec Observe EffFacts VectorFacts GeneratorFacts OrchestratorFacts.
Import ActionsMore OrchestratorMore RouteFacts RouteMore.

(** X20.  A body that decodes to a value that is neither an object nor
    [null] -- a number, a string, a boolean, an array, whatever it
    contains -- is not rejected as malformed: it is dispatched with every
    member undefined and answered, with status 200, by ["Method not found:
    undefined"] and no [id]. *)
Theorem POST_non_object_body (w : World) (http : Route.NextRequest) (v : JSValue) :
  Route.json http = Ok v ->
  v <> JUndefined ->
  v <> JNull ->
  (forall fields, v <> JObject fields) ->
  Route.POST http w
  = ([], Ok {| Route.status := 200;
               Route.body :=
                 {| Route.jsonrpc := "2.0"; Route.id := JUndefined;
                    Route.result := None;
                    Route.error :=
                      Some {| Route.code := -32601;
                              Route.message := "Method not found: undefined" |} |} |}).
Proof.
  intros Hv Hu Hn Ho.
  unfold Route.POST, Eff.try_catch, Eff.bind, lift. rewrite Hv.
  destruct v as [| | b | n | str | items | fields];
    try congruence; try reflexivity.
Qed.

Lemma tools_call_profile (w : World) (i params : JSValue) :
  opt_prop params "name" = JString "get_profile_info" ->
  Route.tools_call i params w
  = match Vector.getVectorInfo w with
    | (t, Ok info) =>
        (t, Ok (Route.success i (Route.profile_result (Number_toString w) info)))
    | (t, Throw e) => (t, Throw e)
    end.
Proof.
  intros Hn. unfold Route.tools_call. rewrite Hn.
  cbn [strict_eq_string String.eqb Ascii.eqb Bool.eqb].
  unfold Eff.bind, ask, Eff.ret.
  destruct (Vector.getVectorInfo w) as [t [info | e]]; [|reflexivity].
  cbn. now rewrite app_nil_r.
Qed.

Lemma handle_tools_call (w : World) (request : JSValue) :
  prop request "method" = JString "tools/call" ->
  Route.handleMCPRequest request w
  = match Route.tools_call (prop request "id") (prop request "params") w with
    | (t, Ok resp) => (t, Ok resp)
    | (t, Throw e) =>
        (t, Ok (Route.failure (prop request "id") (-32603)
                  (message_or "Internal error" e)))
    end.
Proof.
  intros Hm.
  rewrite (handleMCPRequest_run w request (method_not_nullish request Hm)).
  rewrite Hm. reflexivity.
Qed.

(** X21.  [get_profile_info], whatever its arguments: with the credentials
    set and the status query answered, the handler makes that one call and
    answers with one text block that shows the two counts, a falsy count
    shown as zero. *)
Theorem profile_info_answer (w : World) (request : JSValue) (info : IndexInfo) :
  calls_tool request "get_profile_info" ->
  vector_configured w ->
  index_info w = Ok info ->
  Route.handleMCPRequest request w
  = ([EvIndexInfo],
     Ok {| Route.jsonrpc := "2.0"; Route.id := prop request "id";
           Route.result :=
             Some (JObject
                     [ ("content",
                         JArray
                           [ JObject
                               [ ("type", JString "text");
                                 ("text",
                                   JString
                                     ("Digital Twin Profile Status:
- Vector Count: "
                                      ++ Number_toString w
                                           (or_zero (info_vectorCount info))
                                      ++ "
- Dimension: "
                                      ++ Number_toString w
                                           (or_zero (info_dimension info)))) ] ]) ]);
           Route.error := None |}).
Proof.
  intros [Hm Ht] Hw Hi.
  rewrite (handle_tools_call w request Hm), (tools_call_profile w _ _ Ht).
  rewrite (VectorMore.getVectorInfo_ok_run Hw Hi). reflexivity.
Qed.

(** X22.  When the status query is rejected, [get_profile_info] is answered
    with code [-32603] and the message ["Failed to get vector info: "]
    followed by the message of the cause. *)
Theorem profile_info_failure (w : World) (request : JSValue) (e : Thrown) :
  calls_tool request "get_profile_info" ->
  vector_configured w ->
  index_info w = Throw e ->
  Route.handleMCPRequest request w
  = ([EvIndexInfo; EvConsoleError "Error getting vector info:" e],
     Ok {| Route.jsonrpc := "2.0"; Route.id := prop request "id";
           Route.result := None;
           Route.error :=
             Some {| Route.code := -32603;
                     Route.message :=
                       "Failed to get vector info: "
                       ++ message_or "Unknown error" e |} |}).
Proof.
  intros [Hm Ht] Hw Hi.
  rewrite (handle_tools_call w request Hm), (tools_call_profile w _ _ Ht).
  rewrite (VectorMore.getVectorInfo_rejected_run Hw Hi). reflexivity.
Qed.

Lemma tools_call_ask (w : World) (i params : JSValue) :
  opt_prop params "name" = JString "ask_digital_twin" ->
  truthy (opt_prop (opt_prop params "arguments") "question") = true ->
  Route.tools_call i params w
  = match Actions.ragQuery (opt_prop (opt_prop params "arguments") "question") w
    with
    | (t, Ok response) => (t, Ok (Route.success i (Route.ask_result response)))
    | (t, Throw e) => (t, Throw e)
    end.
Proof.
  intros Hn Hq. unfold Route.tools_call. rewrite Hn.
  cbn [strict_eq_string String.eqb Ascii.eqb Bool.eqb]. rewrite Hq. cbn [negb].
  unfold Eff.bind, Eff.ret.
  destruct (Actions.ragQuery _ w) as [t [response | e]]; [|reflexivity].
  now rewrite app_nil_r.
Qed.

(** X23.  The whole path of [ask_digital_twin]: for a non-empty question,
    with both services configured and answering, and at least one fragment
    retained, the handler queries the index, sends the prompt built from the
    retained fragments, and answers with the completion's text as a text
    block and, as metadata, the title and score of every retained fragment
    in order. *)
Theorem ask_answer
        (w : World) (request : JSValue) (question : string)
        (found : list IndexMatch) (kept : list Vector.Source) (c : ChatCompletion) :
  calls_tool request "ask_digital_twin" ->
  question_of request = JString question ->
  question <> "" ->
  vector_configured w ->
  groq_configured w ->
  index_query w (JString question) 3 = Ok found ->
  Retained found kept ->
  kept <> [] ->
  chat_completions_create w
    (Actions.completion_request
       (Actions.build_prompt (context_block kept) question)
       Actions.DEFAULT_MODEL)
  = Ok c ->
  Route.handleMCPRequest request w
  = ([ EvIndexQuery (JString question) 3;
       EvChatCompletion
         (Actions.completion_request
            (Actions.build_prompt (context_block kept) question)
            Actions.DEFAULT_MODEL) ],
     Ok {| Route.jsonrpc := "2.0"; Route.id := prop request "id";
           Route.result :=
             Some (JObject
                     [ ("content",
                         JArray
                           [ JObject
                               [ ("type", JString "text");
                                 ("text", JString (Actions.completion_text c)) ] ]);
                       ("metadata",
                         JObject
                           [ ("sources",
                               JArray
                                 (map (fun s =>
                                         JObject
                                           [ ("title", JString (Vector.title s));
                                             ("relevance", JNumber (Vector.score s)) ])
                                      kept)) ]) ]);
           Route.error := None |}).
Proof.
  intros [Hm Ht] Hq Hne Hw Hk Hi HR Hkept Hc.
  unfold question_of in Hq.
  rewrite (handle_tools_call w request Hm).
  rewrite (tools_call_ask w _ _ Ht)
    by (rewrite Hq; now apply string_truthy_true).
  rewrite Hq.
  pose proof (getRelevantContext_run w (JString question) 3) as Hg.
  rewrite (queryVectors_ok (JString question) 3 Hw Hi) in Hg.
  rewrite (Retained_functional
             (filter_map_retained (Number_toString w) found) HR) in Hg.
  rewrite (@ragQuery_grounded w (JString question) question _ kept Hg Hkept eq_refl).
  rewrite build_context_block.
  rewrite (generateResponse_ok _ _ Hk Hc). reflexivity.
Qed.

(** X24.  [ask_digital_twin] when nothing is retained: the handler queries
    the index, does not call the chat service, and answers -- as a result,
    not as an error -- with the fixed sentence and an empty list of
    sources. *)
Theorem ask_without_grounding
        (w : World) (request : JSValue) (question : string)
        (found : list IndexMatch) :
  calls_tool request "ask_digital_twin" ->
  question_of request = JString question ->
  question <> "" ->
  vector_configured w ->
  index_query w (JString question) 3 = Ok found ->
  Retained found [] ->
  Route.handleMCPRequest request w
  = ([ EvIndexQuery (JString question) 3 ],
     Ok {| Route.jsonrpc := "2.0"; Route.id := prop request "id";
           Route.result :=
             Some (JObject
                     [ ("content",
                         JArray
                           [ JObject
                               [ ("type", JString "text");
                                 ("text",
                                   JString
                                     "I don't have specific information about that topic.") ] ]);
                       ("metadata", JObject [ ("sources", JArray []) ]) ]);
           Route.error := None |}).
Proof.
  intros [Hm Ht] Hq Hne Hw Hi HR.
  unfold question_of in Hq.
  rewrite (handle_tools_call w request Hm).
  rewrite (tools_call_ask w _ _ Ht)
    by (rewrite Hq; now apply string_truthy_true).
  rewrite Hq.
  pose proof (getRelevantContext_run w (JString question) 3) as Hg.
  rewrite (queryVectors_ok (JString question) 3 Hw Hi) in Hg.
  rewrite (Retained_functional
             (filter_map_retained (Number_toString w) found) HR) in Hg.
  rewrite (ragQuery_empty w (JString question) Hg). reflexivity.
Qed.

(** X25.  When the orchestrator fails, the client of [ask_digital_twin]
    gets code [-32603] and the whole chain of messages: ["RAG query failed:
    Failed to query vectors: "] and the message of the cause when the index
    rejects the query. *)
Theorem ask_failure_reaches_client
        (w : World) (request : JSValue) (e : Thrown) :
  calls_tool request "ask_digital_twin" ->
  truthy (question_of request) = true ->
  vector_configured w ->
  index_query w (question_of request) 3 = Throw e ->
  snd (Route.handleMCPRequest request w)
  = Ok {| Route.jsonrpc := "2.0"; Route.id := prop request "id";
          Route.result := None;
          Route.error :=
            Some {| Route.code := -32603;
                    Route.message :=
                      "RAG query failed: Failed to query vectors: "
                      ++ message_or "Unknown error" e |} |}
  /\ generations (fst (Route.handleMCPRequest request w)) = 0%nat.
Proof.
  intros [Hm Ht] Hq Hw Hi.
  unfold question_of in *.
  rewrite (handle_tools_call w request Hm).
  rewrite (tools_call_ask w _ _ Ht Hq).
  assert (H : Vector.getRelevantContext
                (opt_prop (opt_prop (prop request "params") "arguments") "question")
                3 w
              = ([EvIndexQuery
                    (opt_prop (opt_prop (prop request "params") "arguments")
                       "question") 3;
                  EvConsoleError "Error querying vectors:" e],
                 Throw (ErrorObject
                          ("Failed to query vectors: "
                           ++ message_or "Unknown error" e))))
    by (rewrite getRelevantContext_run;
        now rewrite (queryVectors_rejected _ 3 Hw Hi)).
  rewrite (ragQuery_retrieval_throw w _ H). split; reflexivity.
Qed.

(** X26.  Whatever the request, one run of [handleMCPRequest] calls the
    service clients not at all, or [index.info] once, or [index.query] once
    for the request's question and then [chat.completions.create] at most
    once; a method other than [tools/call] has no effect at all.  (The
    requests a client sends for one call, its own retries included, are not
    counted.) *)
Theorem handleMCPRequest_call_bound (w : World) (request : JSValue) :
  (client_calls (fst (Route.handleMCPRequest request w)) = []
   \/ client_calls (fst (Route.handleMCPRequest request w)) = [EvIndexInfo]
   \/ client_calls (fst (Route.handleMCPRequest request w))
      = [EvIndexQuery (question_of request) 3]
   \/ exists req,
       client_calls (fst (Route.handleMCPRequest request w))
       = [EvIndexQuery (question_of request) 3; EvChatCompletion req])
  /\ (prop request "method" <> JString "tools/call" ->
      fst (Route.handleMCPRequest request w) = []).
Proof.
  destruct (nullish request) eqn:Hn.
  { destruct (handleMCPRequest_nullish w request Hn) as [e He].
    rewrite He. split; [now left | reflexivity]. }
  assert (F : fst (Route.handleMCPRequest request w)
              = fst (Route.dispatch (prop request "id") (prop request "method")
                       (prop request "params") w)).
  { rewrite (handleMCPRequest_run w request Hn).
    now destruct (Route.dispatch _ _ _ w) as [t [resp | e]]. }
  rewrite F. clear F.
  destruct (strict_eq_string (prop request "method") "tools/call") eqn:Hc.
  2:{ rewrite (dispatch_static w _ _ _ Hc). split; [now left | reflexivity]. }
  assert (Hm : prop request "method" = JString "tools/call").
  { destruct (prop request "method"); try discriminate.
    cbn in Hc. apply String.eqb_eq in Hc. now subst. }
  split; [|congruence].
  unfold Route.dispatch. rewrite Hm.
  cbn [strict_eq_string String.eqb Ascii.eqb Bool.eqb].
  unfold Route.tools_call.
  destruct (strict_eq_string (opt_prop (prop request "params") "name")
              "ask_digital_twin").
  - fold (question_of request).
    destruct (truthy (question_of request)); cbn [negb]; [|now left].
    unfold Eff.bind, Eff.ret.
    pose proof (ragQuery_call_cases w (question_of request)) as N.
    destruct (Actions.ragQuery (question_of request) w) as [t [resp | e]];
      cbn [fst] in *; [rewrite app_nil_r|];
      (destruct N as [N | [N | N]]; [now left | right; right; now left
                                     | right; right; now right]).
  - destruct (strict_eq_string (opt_prop (prop request "params") "name")
                "get_profile_info").
    + unfold Eff.bind, ask, Eff.ret.
      pose proof (VectorMore.getVectorInfo_call_cases w) as N.
      destruct (Vector.getVectorInfo w) as [t [info | e]]; cbn [fst] in *;
        [cbn; rewrite app_nil_r|];
        (destruct N as [N | N]; [now left | right; now left]).
    + unfold Eff.bind. rewrite to_string_run.
      destruct (ToString (Number_toString w) _); now left.
Qed.

End ToolsMore.

(** ** The chat page *)

Module PageMore.
Import JS Eff Spec Observe EffFacts OrchestratorFacts.

Lemma chatWithDigitalTwin_run (w : World) (message : JSValue) :
  Actions.chatWithDigitalTwin message w
  = match Actions.ragQuery message w with
    | (t, Ok response) => (t, Ok (Actions.answer response))
    | (t, Throw e) => (t, Throw e)
    end.
Proof.
  unfold Actions.chatWithDigitalTwin, bind, ret.
  destruct (Actions.ragQuery message w) as [t [response | e]]; [|reflexivity].
  now rewrite app_nil_r.
Qed.

(** What the assistant's turn shows for an outcome of the orchestrator. *)
Lemma handleSubmit_blocked_run (st : Page.State) (w : World) :
  Page.submit_blocked st = true ->
  Page.handleSubmit st w = ([], st, Ok tt).
Proof.
  intros Hb. unfold Page.handleSubmit, Page.bind, Page.get.
  now rewrite Hb.
Qed.

Lemma handleSubmit_open_run (st : Page.State) (w : World) :
  Page.submit_blocked st = false ->
  Page.handleSubmit st w
  = (fst (Actions.ragQuery (JString (trim (Page.input st))) w),
     {| Page.messages :=
          (Page.messages st
           ++ [ {| Page.role := Page.user;
                   Page.content := trim (Page.input st) |};
                {| Page.role := Page.assistant;
                   Page.content :=
                     match snd (Actions.ragQuery
                                  (JString (trim (Page.input st))) w) with
                     | Ok response => Actions.answer response
                     | Throw e => Page.error_text e
                     end |} ])%list;
        Page.input := "";
        Page.isLoading := false;
        Page.vectorInfo := Page.vectorInfo st |},
     Ok tt).
Proof.
  intros Hb. unfold Page.handleSubmit, Page.bind at 1, Page.get.
  rewrite Hb.
  unfold Page.bind, Page.try_finally, Page.try_catch, Page.call,
    Page.setInput, Page.setMessages, Page.setIsLoading.
  cbn [Page.messages Page.input Page.isLoading Page.vectorInfo app].
  rewrite chatWithDigitalTwin_run.
  destruct (Actions.ragQuery (JString (trim (Page.input st))) w)
    as [t [response | e]];
    cbn [fst snd Page.messages Page.input Page.isLoading Page.vectorInfo];
    rewrite ?app_nil_r, <- ?app_assoc; reflexivity.
Qed.

(** X27.  The Send button is disabled exactly when submitting would do
    nothing: with a blank input or while an answer is pending,
    [handleSubmit] leaves every cell as it is and calls nothing; otherwise
    it changes the transcript. *)
Theorem handleSubmit_noop_iff_disabled (st : Page.State) (w : World) :
  Page.send_disabled st = true <-> Page.handleSubmit st w = ([], st, Ok tt).
Proof.
  assert (E : Page.send_disabled st = Page.submit_blocked st)
    by (unfold Page.send_disabled, Page.submit_blocked; apply orb_comm).
  rewrite E. split.
  - apply handleSubmit_blocked_run.
  - intros H0. destruct (Page.submit_blocked st) eqn:Hb; [reflexivity|].
    assert (Hm : Page.messages (snd (fst (Page.handleSubmit st w)))
                 = Page.messages st) by now rewrite H0.
    rewrite (handleSubmit_open_run st w Hb) in Hm.
    cbn [fst snd Page.messages] in Hm.
    apply (f_equal (@List.length Page.Message)) in Hm.
    rewrite length_app in Hm. simpl in Hm.
    exfalso. clear -Hm. induction (List.length (Page.messages st)); simpl in Hm;
      [discriminate | injection Hm; auto].
Qed.

(** X28.  A submit that is not blocked never throws.  It appends exactly two
    turns to the transcript -- the trimmed input as the user's, then the
    assistant's: the orchestrator's answer, or ["Error: "] followed by the
    orchestrator's message when it failed -- clears the input, ends with
    [isLoading] false, and leaves the earlier turns and the vector status
    untouched.  Its effects are those of the one call of the
    orchestrator. *)
Theorem handleSubmit_exchange (st : Page.State) (w : World) :
  Page.submit_blocked st = false ->
  exists reply,
    Page.handleSubmit st w
    = (fst (Actions.ragQuery (JString (trim (Page.input st))) w),
       {| Page.messages :=
            (Page.messages st
             ++ [ {| Page.role := Page.user;
                     Page.content := trim (Page.input st) |};
                  {| Page.role := Page.assistant; Page.content := reply |} ])%list;
          Page.input := "";
          Page.isLoading := false;
          Page.vectorInfo := Page.vectorInfo st |},
       Ok tt)
    /\ (forall response,
           snd (Actions.ragQuery (JString (trim (Page.input st))) w) = Ok response ->
           reply = Actions.answer response)
    /\ (forall e,
           snd (Actions.ragQuery (JString (trim (Page.input st))) w) = Throw e ->
           exists m,
             e = ErrorObject ("RAG query failed: " ++ m)
             /\ reply = "Error: RAG query failed: " ++ m).
Proof.
  intros Hb. eexists. split; [apply (handleSubmit_open_run st w Hb)|].
  split.
  - intros response H. now rewrite H.
  - intros e H. rewrite H.
    unfold Actions.ragQuery in H. rewrite try_rethrow_run in H.
    match type of H with
    | snd (match ?m with _ => _ end) = _ =>
        destruct m as [t [r | e0]]; cbn [snd] in H; [discriminate|]
    end.
    inversion H; subst. eexists. split; reflexivity.
Qed.

Lemma alternating_app (ms : list Page.Message) (u a : Page.Message) :
  alternating ms ->
  Page.role u = Page.user -> Page.role a = Page.assistant ->
  alternating (ms ++ [u; a]).
Proof.
  revert ms. fix IH 1.
  intros ms H Hu Ha.
  destruct ms as [|x [|y rest]].
  - simpl. auto.
  - destruct H.
  - destruct H as [Hx [Hy Hrest]].
    change (alternating (x :: y :: (rest ++ [u; a])%list)).
    cbn [alternating]. repeat split; try assumption.
    now apply IH.
Qed.

(** X29.  [handleSubmit] keeps the transcript well formed: if the turns
    alternate, the user first and the assistant last, they still do after
    any submit, blocked or not, whether the orchestrator answered or
    failed. *)
Theorem handleSubmit_keeps_alternation (st : Page.State) (w : World) :
  alternating (Page.messages st) ->
  alternating (Page.messages (snd (fst (Page.handleSubmit st w)))).
Proof.
  intros H.
  destruct (Page.submit_blocked st) eqn:Hb.
  - now rewrite (handleSubmit_blocked_run st w Hb).
  - rewrite (handleSubmit_open_run st w Hb). cbn [fst snd Page.messages].
    now apply alternating_app.
Qed.

(** X30.  [checkVectorDB] never throws.  When the status query succeeds it
    stores the counts and touches no other cell; when it fails -- missing
    credentials or a rejected call -- it leaves the state as it was and logs
    the error to the console. *)
Theorem checkVectorDB_outcomes (st : Page.State) (w : World) :
  (forall t info,
      Vector.getVectorInfo w = (t, Ok info) ->
      Page.checkVectorDB st w
      = (t,
         {| Page.messages := Page.messages st;
            Page.input := Page.input st;
            Page.isLoading := Page.isLoading st;
            Page.vectorInfo := Some info |},
         Ok tt))
  /\ (forall t e,
         Vector.getVectorInfo w = (t, Throw e) ->
         Page.checkVectorDB st w
         = ((t ++ [EvConsoleError "Error checking vector DB:" e])%list, st, Ok tt))
  /\ exists t st', Page.checkVectorDB st w = (t, st', Ok tt).
Proof.
  unfold Page.checkVectorDB, Page.try_catch, Page.bind, Page.call,
    Page.setVectorInfo, console_error, emit.
  destruct (Vector.getVectorInfo w) as [t [info | e]].
  - split; [|split].
    + intros t' info' H. inversion H; subst. now rewrite app_nil_r.
    + intros t' e H. discriminate.
    + do 2 eexists. reflexivity.
  - split; [|split].
    + intros t' info H. discriminate.
    + intros t' e' H. inversion H; subst. reflexivity.
    + do 2 eexists. reflexivity.
Qed.

End PageMore.

(** ** The further properties at work *)

Lemma queryVectors_failure_wrapped_witness :
  Vector.getRelevantContext (JS.JString "Who are you?") 3
    (Outage.index_down (JS.ErrorObject "fetch failed") None)
  = ([ Eff.EvIndexQuery (JS.JString "Who are you?") 3;
       Eff.EvConsoleError "Error querying vectors:" (JS.ErrorObject "fetch failed") ],
     JS.Throw (JS.ErrorObject "Failed to query vectors: fetch failed")).
Proof.
  apply (@VectorMore.queryVectors_failure_wrapped
           (Outage.index_down (JS.ErrorObject "fetch failed") None)
           (JS.JString "Who are you?") 3 (JS.ErrorObject "fetch failed")).
  - split; reflexivity.
  - reflexivity.
Defined.

Lemma vector_unconfigured_no_call_witness :
  Vector.getVectorInfo Scenario.unconfigured
  = ([Eff.EvConsoleError "Error getting vector info:"
        (JS.ErrorObject "Upstash Vector credentials not configured")],
     JS.Throw
       (JS.ErrorObject
          "Failed to get vector info: Upstash Vector credentials not configured")).
Proof.
  apply (@VectorMore.vector_unconfigured_no_call
           Scenario.unconfigured (JS.JString "Who are you?") 3).
  intros [H _]. discriminate H.
Defined.

Lemma getRelevantContext_sources_filled_witness :
  Forall (fun s => Vector.content s <> "" /\ Vector.title s <> "")
    [ {| Vector.title := "Skills";
         Vector.content := "Go, TypeScript, distributed systems";
         Vector.score := 0.91%float |};
      {| Vector.title := "Information";
         Vector.content := "BSc in Computer Science";
         Vector.score := 0.55%float |} ].
Proof.
  apply (@VectorMore.getRelevantContext_sources_filled
           (Scenario.world
              [Scenario.skills; Scenario.hollow; Scenario.bare; Scenario.education]
              None)
           (JS.JString "Who are you?") 3
           [Eff.EvIndexQuery (JS.JString "Who are you?") 3]).
  reflexivity.
Defined.

Lemma getRelevantContext_keeps_order_witness :
  (List.length
     [ {| Vector.title := "Skills";
          Vector.content := "Go, TypeScript, distributed systems";
          Vector.score := 0.91%float |};
       {| Vector.title := "Information";
          Vector.content := "BSc in Computer Science";
          Vector.score := 0.55%float |} ]
   <= List.length
        [Scenario.skills; Scenario.hollow; Scenario.bare; Scenario.education])%nat
  /\ (StronglySorted
        (fun a b => PrimFloat.leb (Eff.match_score b) (Eff.match_score a) = true)
        [Scenario.skills; Scenario.hollow; Scenario.bare; Scenario.education] ->
      StronglySorted
        (fun a b => PrimFloat.leb (Vector.score b) (Vector.score a) = true)
        [ {| Vector.title := "Skills";
             Vector.content := "Go, TypeScript, distributed systems";
             Vector.score := 0.91%float |};
          {| Vector.title := "Information";
             Vector.content := "BSc in Computer Science";
             Vector.score := 0.55%float |} ]).
Proof.
  apply (@VectorMore.getRelevantContext_keeps_order
           (fun x y => PrimFloat.leb y x = true)
           (Scenario.world
              [Scenario.skills; Scenario.hollow; Scenario.bare; Scenario.education]
              None)
           (JS.JString "Who are you?") 3
           [Scenario.skills; Scenario.hollow; Scenario.bare; Scenario.education]
           [Eff.EvIndexQuery (JS.JString "Who are you?") 3]).
  - split; reflexivity.
  - reflexivity.
  - reflexivity.
Defined.

Lemma getVectorInfo_counts_witness :
  exists r,
    Vector.getVectorInfo (Outage.no_key []) = ([Eff.EvIndexInfo], JS.Ok r)
    /\ Vector.vectorCount r = 0%float
    /\ Vector.dimension r = 1024%float
    /\ JS.is_nan (Vector.vectorCount r) = false
    /\ JS.is_nan (Vector.dimension r) = false.
Proof.
  apply (@VectorMore.getVectorInfo_counts
           (Outage.no_key [])
           {| Eff.info_vectorCount := 0%float; Eff.info_dimension := 1024%float |}).
  - split; reflexivity.
  - reflexivity.
Defined.

Lemma generateResponse_unconfigured_witness :
  Actions.generateResponse "Hello" Actions.DEFAULT_MODEL
    (Outage.no_key [Scenario.skills])
  = ([Eff.EvConsoleError "Error generating response:"
        (JS.ErrorObject "GROQ_API_KEY not configured")],
     JS.Throw
       (JS.ErrorObject "Failed to generate response: GROQ_API_KEY not configured")).
Proof.
  apply (@ActionsMore.generateResponse_unconfigured
           (Outage.no_key [Scenario.skills]) "Hello" Actions.DEFAULT_MODEL).
  intros H. discriminate H.
Defined.

Lemma generateResponse_failure_wrapped_witness :
  Actions.generateResponse "Hello" Actions.DEFAULT_MODEL
    (Outage.chat_down [] (JS.ThrownValue (JS.JString "rate limited")))
  = ([ Eff.EvChatCompletion (Actions.completion_request "Hello" Actions.DEFAULT_MODEL);
       Eff.EvConsoleError "Error generating response:"
         (JS.ThrownValue (JS.JString "rate limited")) ],
     JS.Throw (JS.ErrorObject "Failed to generate response: Unknown error")).
Proof.
  apply (@ActionsMore.generateResponse_failure_wrapped
           (Outage.chat_down [] (JS.ThrownValue (JS.JString "rate limited")))
           "Hello" Actions.DEFAULT_MODEL
           (JS.ThrownValue (JS.JString "rate limited"))).
  - reflexivity.
  - reflexivity.
Defined.

Lemma generateResponse_answer_clean_witness :
  "I work with Go." <> ""
  /\ (forall c, Spec.first_char "I work with Go." = Some c ->
                JS.isWhiteSpace c = false)
  /\ (forall c, Spec.last_char "I work with Go." = Some c ->
                JS.isWhiteSpace c = false).
Proof.
  apply (@ActionsMore.generateResponse_answer_clean
           (Scenario.world [] (Some "
   I work with Go.   "))
           "Which languages?" Actions.DEFAULT_MODEL
           [Eff.EvChatCompletion
              (Actions.completion_request "Which languages?" Actions.DEFAULT_MODEL)]).
  reflexivity.
Defined.

Lemma ragQuery_retrieval_failure_witness :
  Actions.ragQuery (JS.JString "Who are you?")
    (Outage.index_down (JS.ErrorObject "fetch failed") (Some "unused"))
  = ([ Eff.EvIndexQuery (JS.JString "Who are you?") 3;
       Eff.EvConsoleError "Error querying vectors:" (JS.ErrorObject "fetch failed");
       Eff.EvConsoleError "Error in RAG query:"
         (JS.ErrorObject "Failed to query vectors: fetch failed") ],
     JS.Throw
       (JS.ErrorObject "RAG query failed: Failed to query vectors: fetch failed")).
Proof.
  apply (@OrchestratorMore.ragQuery_retrieval_failure
           (Outage.index_down (JS.ErrorObject "fetch failed") (Some "unused"))
           (JS.JString "Who are you?") (JS.ErrorObject "fetch failed")).
  - split; reflexivity.
  - reflexivity.
Defined.

Lemma ragQuery_result_invariant_witness :
  (exists t1,
      Vector.getRelevantContext (JS.JString "What are your technical skills?") 3
        (Scenario.world [Scenario.skills] (Some " I work with Go. "))
      = (t1, JS.Ok [ {| Vector.title := "Skills";
                        Vector.content := "Go, TypeScript, distributed systems";
                        Vector.score := 0.91%float |} ]))
  /\ "I work with Go." <> "".
Proof.
  destruct
    (@OrchestratorMore.ragQuery_result_invariant
       (Scenario.world [Scenario.skills] (Some " I work with Go. "))
       (JS.JString "What are your technical skills?")
       (fst (Actions.ragQuery (JS.JString "What are your technical skills?")
               (Scenario.world [Scenario.skills] (Some " I work with Go. "))))
       {| Actions.answer := "I work with Go.";
          Actions.sources :=
            [ {| Vector.title := "Skills";
                 Vector.content := "Go, TypeScript, distributed systems";
                 Vector.score := 0.91%float |} ] |})
    as [H1 [H2 _]].
  - reflexivity.
  - split; [exact H1 | exact H2].
Defined.

Lemma ragQuery_generation_failure_witness :
  exists t,
    Actions.ragQuery (JS.JString "What are your technical skills?")
      (Outage.chat_down [Scenario.skills] (JS.ErrorObject "503"))
    = (t, JS.Throw
            (JS.ErrorObject "RAG query failed: Failed to generate response: 503"))
    /\ Observe.client_calls t
       = [ Eff.EvIndexQuery (JS.JString "What are your technical skills?") 3;
           Eff.EvChatCompletion
             (Actions.completion_request
                (Actions.build_prompt
                   "Skills: Go, TypeScript, distributed systems"
                   "What are your technical skills?")
                Actions.DEFAULT_MODEL) ].
Proof.
  apply (@OrchestratorMore.ragQuery_generation_failure
           (Outage.chat_down [Scenario.skills] (JS.ErrorObject "503"))
           "What are your technical skills?"
           [Scenario.skills]
           [ {| Vector.title := "Skills";
                Vector.content := "Go, TypeScript, distributed systems";
                Vector.score := 0.91%float |} ]
           (JS.ErrorObject "503")).
  - split; reflexivity.
  - reflexivity.
  - reflexivity.
  - apply (@Spec.Retained_keep Scenario.skills
             {| Eff.meta_title := "Skills";
                Eff.meta_type := "skills";
                Eff.meta_content := "Go, TypeScript, distributed systems";
                Eff.meta_category := "technical";
                Eff.meta_tags := ["go"; "typescript"] |}
             [] []).
    + reflexivity.
    + discriminate.
    + constructor.
  - discriminate.
  - reflexivity.
Defined.

Lemma ragQuery_unshowable_question_witness :
  Actions.ragQuery (JS.JObject [("toString", JS.JBool true)])
    (Scenario.world [Scenario.skills] (Some "unused"))
  = ([ Eff.EvIndexQuery (JS.JObject [("toString", JS.JBool true)]) 3;
       Eff.EvConsoleError "Error in RAG query:"
         (JS.ErrorObject "Cannot convert object to primitive value") ],
     JS.Throw
       (JS.ErrorObject "RAG query failed: Cannot convert object to primitive value"))
  /\ Observe.generations
       (fst (Actions.ragQuery (JS.JObject [("toString", JS.JBool true)])
               (Scenario.world [Scenario.skills] (Some "unused"))))
     = 0%nat.
Proof.
  apply (@OrchestratorMore.ragQuery_unshowable_question
           (Scenario.world [Scenario.skills] (Some "unused"))
           (JS.JObject [("toString", JS.JBool true)])
           [Eff.EvIndexQuery (JS.JObject [("toString", JS.JBool true)]) 3]
           [ {| Vector.title := "Skills";
                Vector.content := "Go, TypeScript, distributed systems";
                Vector.score := 0.91%float |} ]
           (JS.ErrorObject "Cannot convert object to primitive value")).
  - reflexivity.
  - discriminate.
  - reflexivity.
Defined.

Lemma static_methods_pure_witness :
  Route.handleMCPRequest
    (JS.JObject [("id", JS.JNumber 1%float); ("method", JS.JString "initialize");
                 ("params", JS.JObject [("clientInfo", JS.JString "inspector")])])
    Scenario.unconfigured
  = Route.handleMCPRequest
      (JS.JObject [("jsonrpc", JS.JString "2.0"); ("id", JS.JNumber 1%float);
                   ("method", JS.JString "initialize")])
      (Scenario.world [Scenario.skills] (Some "I work with Go.")).
Proof.
  apply (@RouteMore.static_methods_pure
           (Scenario.world [Scenario.skills] (Some "I work with Go."))
           Scenario.unconfigured
           (JS.JObject [("jsonrpc", JS.JString "2.0"); ("id", JS.JNumber 1%float);
                        ("method", JS.JString "initialize")])
           (JS.JObject [("id", JS.JNumber 1%float);
                        ("method", JS.JString "initialize");
                        ("params", JS.JObject [("clientInfo", JS.JString "inspector")])])
           "initialize").
  - left. reflexivity.
  - reflexivity.
  - reflexivity.
  - reflexivity.
Defined.

Lemma tools_list_matches_probe_witness :
  exists listed health,
    Route.handleMCPRequest
      (JS.JObject [("id", JS.JString "l1"); ("method", JS.JString "tools/list")])
      Scenario.unconfigured
    = ([], JS.Ok (Route.success (JS.JString "l1")
                    (JS.JObject [("tools", JS.JArray listed)])))
    /\ Route.GET Scenario.unconfigured = ([], JS.Ok health)
    /\ map (fun d => JS.prop d "name") listed
       = map JS.JString (Route.tools (Route.body health))
    /\ Forall (fun d => exists n ds sc,
                   d = JS.JObject [("name", JS.JString n);
                                   ("description", JS.JString ds);
                                   ("inputSchema", JS.JObject sc)])
              listed.
Proof.
  apply (@RouteMore.tools_list_matches_probe
           Scenario.unconfigured
           (JS.JObject [("id", JS.JString "l1"); ("method", JS.JString "tools/list")])).
  reflexivity.
Defined.

Lemma unknown_method_witness :
  Route.handleMCPRequest
    (JS.JObject [("id", JS.JNumber 4%float); ("method", JS.JString "resources/list")])
    Scenario.unconfigured
  = ([], JS.Ok {| Route.jsonrpc := "2.0"; Route.id := JS.JNumber 4%float;
                  Route.result := None;
                  Route.error :=
                    Some {| Route.code := -32601;
                            Route.message := "Method not found: resources/list" |} |}).
Proof.
  apply (@RouteMore.unknown_method
           Scenario.unconfigured
           (JS.JObject [("id", JS.JNumber 4%float);
                        ("method", JS.JString "resources/list")])
           "resources/list").
  - reflexivity.
  - discriminate.
  - discriminate.
  - discriminate.
Defined.

Lemma unknown_tool_exactly_witness :
  Route.handleMCPRequest
    (Scenario.call (JS.JNumber 6%float) "Ask_Digital_Twin" (JS.JObject []))
    (Scenario.world [Scenario.skills] (Some "I work with Go."))
  = ([], JS.Ok {| Route.jsonrpc := "2.0"; Route.id := JS.JNumber 6%float;
                  Route.result := None;
                  Route.error :=
                    Some {| Route.code := -32601;
                            Route.message := "Unknown tool: Ask_Digital_Twin" |} |}).
Proof.
  apply (proj1 (@RouteMore.unknown_tool_exactly
                  (Scenario.world [Scenario.skills] (Some "I work with Go."))
                  (Scenario.call (JS.JNumber 6%float) "Ask_Digital_Twin"
                     (JS.JObject []))
                  "Ask_Digital_Twin"
                  (conj eq_refl eq_refl))).
  simpl. intros [H | [H | []]]; discriminate H.
Defined.

Lemma POST_statuses_and_codes_witness :
  (Route.status
     {| Route.status := 200;
        Route.body :=
          Route.failure (JS.JNumber 6%float) (-32602)
            "Missing required parameter: question" |} = 400%Z
   /\ Route.body
        {| Route.status := 200;
           Route.body :=
             Route.failure (JS.JNumber 6%float) (-32602)
               "Missing required parameter: question" |} = Route.PARSE_ERROR
   /\ @nil Eff.Event = [])
  \/ (Route.status
        {| Route.status := 200;
           Route.body :=
             Route.failure (JS.JNumber 6%float) (-32602)
               "Missing required parameter: question" |} = 200%Z
      /\ Route.jsonrpc
           (Route.body
              {| Route.status := 200;
                 Route.body :=
                   Route.failure (JS.JNumber 6%float) (-32602)
                     "Missing required parameter: question" |}) = "2.0"
      /\ (Observe.error_code
            (Route.body
               {| Route.status := 200;
                  Route.body :=
                    Route.failure (JS.JNumber 6%float) (-32602)
                      "Missing required parameter: question" |}) = None
          \/ Observe.error_code
               (Route.body
                  {| Route.status := 200;
                     Route.body :=
                       Route.failure (JS.JNumber 6%float) (-32602)
                         "Missing required parameter: question" |})
             = Some (-32601)%Z
          \/ Observe.error_code
               (Route.body
                  {| Route.status := 200;
                     Route.body :=
                       Route.failure (JS.JNumber 6%float) (-32602)
                         "Missing required parameter: question" |})
             = Some (-32602)%Z
          \/ Observe.error_code
               (Route.body
                  {| Route.status := 200;
                     Route.body :=
                       Route.failure (JS.JNumber 6%float) (-32602)
                         "Missing required parameter: question" |})
             = Some (-32603)%Z)).
Proof.
  apply (@RouteMore.POST_statuses_and_codes
           (Scenario.world [Scenario.skills] (Some "I work with Go."))
           {| Route.json :=
               JS.Ok (Scenario.call (JS.JNumber 6%float) "ask_digital_twin"
                        (JS.JObject [])) |}
           []).
  reflexivity.
Defined.

Lemma POST_non_object_body_witness :
  Route.POST
    {| Route.json := JS.Ok (JS.JArray [JS.JNumber PrimFloat.infinity; JS.JNull]) |}
    (Scenario.world [Scenario.skills] (Some "I work with Go."))
  = ([], JS.Ok {| Route.status := 200;
                  Route.body :=
                    {| Route.jsonrpc := "2.0"; Route.id := JS.JUndefined;
                       Route.result := None;
                       Route.error :=
                         Some {| Route.code := -32601;
                                 Route.message := "Method not found: undefined" |} |} |}).
Proof.
  apply (@ToolsMore.POST_non_object_body
           (Scenario.world [Scenario.skills] (Some "I work with Go."))
           {| Route.json :=
               JS.Ok (JS.JArray [JS.JNumber PrimFloat.infinity; JS.JNull]) |}
           (JS.JArray [JS.JNumber PrimFloat.infinity; JS.JNull])).
  - reflexivity.
  - discriminate.
  - discriminate.
  - discriminate.
Defined.

Lemma profile_info_answer_witness :
  Route.handleMCPRequest
    (Scenario.call (JS.JString "p1") "get_profile_info"
       (JS.JObject [("verbose", JS.JBool true)]))
    (Outage.no_key [])
  = ([Eff.EvIndexInfo],
     JS.Ok {| Route.jsonrpc := "2.0"; Route.id := JS.JString "p1";
              Route.result :=
                Some (JS.JObject
                        [ ("content",
                            JS.JArray
                              [ JS.JObject
                                  [ ("type", JS.JString "text");
                                    ("text",
                                      JS.JString
                                        ("Digital Twin Profile Status:
- Vector Count: "
                                         ++ Eff.Number_toString (Outage.no_key [])
                                              0%float
                                         ++ "
- Dimension: "
                                         ++ Eff.Number_toString (Outage.no_key [])
                                              1024%float)) ] ]) ]);
              Route.error := None |}).
Proof.
  apply (@ToolsMore.profile_info_answer
           (Outage.no_key [])
           (Scenario.call (JS.JString "p1") "get_profile_info"
              (JS.JObject [("verbose", JS.JBool true)]))
           {| Eff.info_vectorCount := 0%float; Eff.info_dimension := 1024%float |}).
  - split; reflexivity.
  - split; reflexivity.
  - reflexivity.
Defined.

Lemma profile_info_failure_witness :
  Route.handleMCPRequest
    (Scenario.call (JS.JString "p2") "get_profile_info" (JS.JObject []))
    (Outage.index_down (JS.ErrorObject "fetch failed") None)
  = ([ Eff.EvIndexInfo;
       Eff.EvConsoleError "Error getting vector info:" (JS.ErrorObject "fetch failed") ],
     JS.Ok {| Route.jsonrpc := "2.0"; Route.id := JS.JString "p2";
              Route.result := None;
              Route.error :=
                Some {| Route.code := -32603;
                        Route.message := "Failed to get vector info: fetch failed" |} |}).
Proof.
  apply (@ToolsMore.profile_info_failure
           (Outage.index_down (JS.ErrorObject "fetch failed") None)
           (Scenario.call (JS.JString "p2") "get_profile_info" (JS.JObject []))
           (JS.ErrorObject "fetch failed")).
  - split; reflexivity.
  - split; reflexivity.
  - reflexivity.
Defined.

Lemma ask_answer_witness :
  Route.handleMCPRequest
    (Scenario.call (JS.JString "a1") "ask_digital_twin"
       (JS.JObject [("question", JS.JString "What are your technical skills?")]))
    (Scenario.world [Scenario.hollow; Scenario.skills] (Some " I work with Go. "))
  = ([ Eff.EvIndexQuery (JS.JString "What are your technical skills?") 3;
       Eff.EvChatCompletion
         (Actions.completion_request
            (Actions.build_prompt
               "Skills: Go, TypeScript, distributed systems"
               "What are your technical skills?")
            Actions.DEFAULT_MODEL) ],
     JS.Ok {| Route.jsonrpc := "2.0"; Route.id := JS.JString "a1";
              Route.result :=
                Some (JS.JObject
                        [ ("content",
                            JS.JArray
                              [ JS.JObject
                                  [ ("type", JS.JString "text");
                                    ("text", JS.JString "I work with Go.") ] ]);
                          ("metadata",
                            JS.JObject
                              [ ("sources",
                                  JS.JArray
                                    [ JS.JObject
                                        [ ("title", JS.JString "Skills");
                                          ("relevance", JS.JNumber 0.91%float) ] ]) ]) ]);
              Route.error := None |}).
Proof.
  apply (@ToolsMore.ask_answer
           (Scenario.world [Scenario.hollow; Scenario.skills]
              (Some " I work with Go. "))
           (Scenario.call (JS.JString "a1") "ask_digital_twin"
              (JS.JObject
                 [("question", JS.JString "What are your technical skills?")]))
           "What are your technical skills?"
           [Scenario.hollow; Scenario.skills]
           [ {| Vector.title := "Skills";
                Vector.content := "Go, TypeScript, distributed systems";
                Vector.score := 0.91%float |} ]
           {| Eff.choices :=
               [ {| Eff.message :=
                     Some {| Eff.content := Some " I work with Go. " |} |} ] |}).
  - split; reflexivity.
  - reflexivity.
  - discriminate.
  - split; reflexivity.
  - reflexivity.
  - reflexivity.
  - apply (@Spec.Retained_empty Scenario.hollow
             {| Eff.meta_title := "Hollow";
                Eff.meta_type := "note";
                Eff.meta_content := "";
                Eff.meta_category := "misc";
                Eff.meta_tags := [] |}).
    + reflexivity.
    + reflexivity.
    + apply (@Spec.Retained_keep Scenario.skills
               {| Eff.meta_title := "Skills";
                  Eff.meta_type := "skills";
                  Eff.meta_content := "Go, TypeScript, distributed systems";
                  Eff.meta_category := "technical";
                  Eff.meta_tags := ["go"; "typescript"] |}
               [] []).
      * reflexivity.
      * discriminate.
      * constructor.
  - discriminate.
  - reflexivity.
Defined.

Lemma ask_without_grounding_witness :
  Route.handleMCPRequest
    (Scenario.call (JS.JString "a2") "ask_digital_twin"
       (JS.JObject [("question", JS.JString "tell me about quantum cooking")]))
    (Scenario.world [Scenario.bare] (Some "unused"))
  = ([ Eff.EvIndexQuery (JS.JString "tell me about quantum cooking") 3 ],
     JS.Ok {| Route.jsonrpc := "2.0"; Route.id := JS.JString "a2";
              Route.result :=
                Some (JS.JObject
                        [ ("content",
                            JS.JArray
                              [ JS.JObject
                                  [ ("type", JS.JString "text");
                                    ("text",
                                      JS.JString
                                        "I don't have specific information about that topic.") ] ]);
                          ("metadata", JS.JObject [ ("sources", JS.JArray []) ]) ]);
              Route.error := None |}).
Proof.
  apply (@ToolsMore.ask_without_grounding
           (Scenario.world [Scenario.bare] (Some "unused"))
           (Scenario.call (JS.JString "a2") "ask_digital_twin"
              (JS.JObject
                 [("question", JS.JString "tell me about quantum cooking")]))
           "tell me about quantum cooking"
           [Scenario.bare]).
  - split; reflexivity.
  - reflexivity.
  - discriminate.
  - split; reflexivity.
  - reflexivity.
  - apply Spec.Retained_absent; [reflexivity | constructor].
Defined.

Lemma ask_failure_reaches_client_witness :
  snd (Route.handleMCPRequest
         (Scenario.call (JS.JString "a3") "ask_digital_twin"
            (JS.JObject [("question", JS.JString "Who are you?")]))
         (Outage.index_down (JS.ErrorObject "fetch failed") (Some "unused")))
  = JS.Ok {| Route.jsonrpc := "2.0"; Route.id := JS.JString "a3";
             Route.result := None;
             Route.error :=
               Some {| Route.code := -32603;
                       Route.message :=
                         "RAG query failed: Failed to query vectors: fetch failed" |} |}
  /\ Observe.generations
       (fst (Route.handleMCPRequest
               (Scenario.call (JS.JString "a3") "ask_digital_twin"
                  (JS.JObject [("question", JS.JString "Who are you?")]))
               (Outage.index_down (JS.ErrorObject "fetch failed") (Some "unused"))))
     = 0%nat.
Proof.
  apply (@ToolsMore.ask_failure_reaches_client
           (Outage.index_down (JS.ErrorObject "fetch failed") (Some "unused"))
           (Scenario.call (JS.JString "a3") "ask_digital_twin"
              (JS.JObject [("question", JS.JString "Who are you?")]))
           (JS.ErrorObject "fetch failed")).
  - split; reflexivity.
  - reflexivity.
  - split; reflexivity.
  - reflexivity.
Defined.

Lemma handleSubmit_exchange_witness :
  exists reply,
    Page.handleSubmit
      {| Page.messages := []; Page.input := "  Who are you? ";
         Page.isLoading := false; Page.vectorInfo := None |}
      Scenario.unconfigured
    = (fst (Actions.ragQuery (JS.JString "Who are you?") Scenario.unconfigured),
       {| Page.messages :=
            [ {| Page.role := Page.user; Page.content := "Who are you?" |};
              {| Page.role := Page.assistant; Page.content := reply |} ];
          Page.input := "";
          Page.isLoading := false;
          Page.vectorInfo := None |},
       JS.Ok tt)
    /\ (forall response,
           snd (Actions.ragQuery (JS.JString "Who are you?") Scenario.unconfigured)
           = JS.Ok response ->
           reply = Actions.answer response)
    /\ (forall e,
           snd (Actions.ragQuery (JS.JString "Who are you?") Scenario.unconfigured)
           = JS.Throw e ->
           exists m,
             e = JS.ErrorObject ("RAG query failed: " ++ m)
             /\ reply = "Error: RAG query failed: " ++ m).
Proof.
  apply (@PageMore.handleSubmit_exchange
           {| Page.messages := []; Page.input := "  Who are you? ";
              Page.isLoading := false; Page.vectorInfo := None |}
           Scenario.unconfigured).
  reflexivity.
Defined.

(** The page shows the failure of an unconfigured server as the assistant's
    turn. *)
Example handleSubmit_error_example :
  Page.messages
    (snd (fst (Page.handleSubmit
                 {| Page.messages := []; Page.input := "  Who are you? ";
                    Page.isLoading := false; Page.vectorInfo := None |}
                 Scenario.unconfigured)))
  = [ {| Page.role := Page.user; Page.content := "Who are you?" |};
      {| Page.role := Page.assistant;
         Page.content :=
           "Error: RAG query failed: Failed to query vectors: Upstash Vector credentials not configured" |} ].
Proof. reflexivity. Qed.

Lemma handleSubmit_keeps_alternation_witness :
  Observe.alternating
    (Page.messages
       (snd (fst (Page.handleSubmit
                    {| Page.messages :=
                         [ {| Page.role := Page.user; Page.content := "Hi" |};
                           {| Page.role := Page.assistant;
                              Page.content := "Hello." |} ];
                       Page.input := "What are your technical skills?";
                       Page.isLoading := false;
                       Page.vectorInfo := None |}
                    (Scenario.world [Scenario.skills] (Some "I work with Go.")))))).
Proof.
  apply (@PageMore.handleSubmit_keeps_alternation
           {| Page.messages :=
                [ {| Page.role := Page.user; Page.content := "Hi" |};
                  {| Page.role := Page.assistant; Page.content := "Hello." |} ];
              Page.input := "What are your technical skills?";
              Page.isLoading := false;
              Page.vectorInfo := None |}
           (Scenario.world [Scenario.skills] (Some "I work with Go."))).
  simpl. auto.
Defined.
